(** * IVR-AI middleware: session store, dialogue policy, transaction processors

    A shallow embedding of the core of the middleware
    ([models.py], [session_manager.py], the mock policy of
    [ai_connector.py] and the business functions of [main.py]) and the
    properties of it that the specification states.

    Conventions of the embedding.
    - A Python [str] is a [string], one character per element.
    - [Dict[str, Any]] is a [gmap string PyVal].
    - A [CallSession] object lives in a heap (a list, a reference is an
      index): the manager's dictionary and its callers hold references to
      the same object, and the manager mutates objects in place.
    - [datetime.now()] is an argument of the operation that reads it; a
      [datetime] is a number of microseconds, and so is a [timedelta].
    - A Python exception is the left injection of [result]. *)

From Stdlib Require Import ZArith QArith Ascii String.
From stdpp Require Import gmap strings list fin_maps pretty.

Open Scope Z_scope.
Open Scope string_scope.

(* ===================================================================== *)
(** ** Python values, exceptions and string operations                    *)
(* ===================================================================== *)

Module Py.

(** The values a JSON body or a slot can hold ([Any]). *)
Inductive PyVal : Type :=
| PNone
| PBool (b : bool)
| PInt (n : Z)
| PStr (s : string).

(** What pydantic can find wrong with one field of a model. *)
Inductive FieldError : Type :=
| Missing
| WrongType
| TooShort
| TooLong
| BelowMinimum
| AboveMaximum.

(** The exceptions the modelled code can raise. A [ValidationError]
    carries pydantic's list of errors, each with the field it is about. *)
Inductive Exn : Type :=
| UnboundLocalError (name : string)
| KeyError (key : string)
| ValidationError (errors : list (string * FieldError)).

Definition result (A : Type) : Type := (Exn + A)%type.

Definition raise {A : Type} (e : Exn) : result A := inl e.

(** [sub in s] on strings: [sub] occurs in [s] as a contiguous run. *)
Fixpoint str_in (sub s : string) : bool :=
  String.prefix sub s ||
  match s with
  | EmptyString => false
  | String _ rest => str_in sub rest
  end.

(** [any(word in s for word in words)] *)
Definition any_in (words : list string) (s : string) : bool :=
  existsb (fun word => str_in word s) words.

(** [key in d] and [key not in d] on a dict. *)
Definition dict_in (key : string) (d : gmap string PyVal) : bool :=
  bool_decide (is_Some (d !! key)).

(** [d[key]]: raises [KeyError] when the key is absent. *)
Definition getitem (d : gmap string PyVal) (key : string) : result PyVal :=
  match d !! key with
  | Some v => inr v
  | None => raise (KeyError key)
  end.

(** [d.get(key)]: [None] when the key is absent. *)
Definition dict_get (d : gmap string PyVal) (key : string) : PyVal :=
  default PNone (d !! key).

(** Truth value of a dict: the empty dict is false. *)
Definition dict_truthy (d : gmap string PyVal) : bool :=
  negb (bool_decide (d = ∅)).

(** Truth value of an [Optional[Dict]]: [None] and [{}] are false. *)
Definition opt_dict_truthy (o : option (gmap string PyVal)) : bool :=
  match o with
  | Some d => dict_truthy d
  | None => false
  end.

(** [str(v)], as an f-string renders a value. *)
Definition format_val (v : PyVal) : string :=
  match v with
  | PNone => "None"
  | PBool true => "True"
  | PBool false => "False"
  | PInt n => pretty n
  | PStr s => s
  end.

(** [str.lower] on text of the 26 unaccented letters: the instance of
    the lower-casing function used to run the policy on examples. *)
Definition lower_char (c : ascii) : ascii :=
  let n := nat_of_ascii c in
  if ((65 <=? n)%nat && (n <=? 90)%nat)%bool then ascii_of_nat (n + 32) else c.

Fixpoint lower_ascii (s : string) : string :=
  match s with
  | EmptyString => EmptyString
  | String c rest => String (lower_char c) (lower_ascii rest)
  end.

End Py.

Notation "'let?' x ':=' e 'in' k" :=
  (match e with
   | inl err => inl err
   | inr x => k
   end)
  (at level 10, x name, e at level 100, k at level 200, only parsing).

(* ===================================================================== *)
(** ** models.py                                                          *)
(* ===================================================================== *)

Module Models.
Import Py.

Definition datetime : Type := Z.
Definition timedelta : Type := Z.

Inductive InputType : Type := SPEECH | DTMF | TEXT.

Inductive CallStatus : Type := ACTIVE | COMPLETED | FAILED | TRANSFERRED.

Record Interaction : Type := mkInteraction {
  timestamp : datetime;
  speaker : string;
  message : string;
  input_type : option InputType
}.

Record CallSession : Type := mkCallSession {
  call_id : string;
  caller_number : string;
  start_time : datetime;
  end_time : option datetime;
  status : CallStatus;
  interactions : list Interaction;
  context : gmap string PyVal;
  current_intent : option string;
  booking_data : option (gmap string PyVal);
  customer_id : option string
}.

(** Attribute assignments on a session object. *)
Definition set_end_time (t : option datetime) (s : CallSession) : CallSession :=
  mkCallSession (call_id s) (caller_number s) (start_time s) t (status s)
    (interactions s) (context s) (current_intent s) (booking_data s) (customer_id s).

Definition set_status (st : CallStatus) (s : CallSession) : CallSession :=
  mkCallSession (call_id s) (caller_number s) (start_time s) (end_time s) st
    (interactions s) (context s) (current_intent s) (booking_data s) (customer_id s).

Definition set_current_intent (i : option string) (s : CallSession) : CallSession :=
  mkCallSession (call_id s) (caller_number s) (start_time s) (end_time s) (status s)
    (interactions s) (context s) i (booking_data s) (customer_id s).

Definition set_booking_data (b : option (gmap string PyVal)) (s : CallSession) : CallSession :=
  mkCallSession (call_id s) (caller_number s) (start_time s) (end_time s) (status s)
    (interactions s) (context s) (current_intent s) b (customer_id s).

Record FlightBooking : Type := mkFlightBooking {
  origin : string;
  destination : string;
  travel_date : string;
  passenger_name : string;
  passenger_contact : string;
  booking_type : string;
  num_passengers : Z
}.

End Models.

(* ===================================================================== *)
(** ** session_manager.py                                                 *)
(* ===================================================================== *)

Module Session_manager.
Import Py Models.

(** The state of a [SessionManager] together with the session objects
    it has created. [sessions] maps a call id to a reference into
    [heap]; an object stays in the heap after its entry is deleted
    from [sessions], as it does for whoever still holds the
    reference. *)
Record SessionManager : Type := mkSessionManager {
  heap : list CallSession;
  sessions : gmap string nat;
  session_timeout : timedelta
}.

Definition minutes (n : Z) : timedelta := n * 60 * 1000000.

(** [SessionManager(session_timeout_minutes=30)] *)
Definition init (session_timeout_minutes : Z) : SessionManager :=
  mkSessionManager [] ∅ (minutes session_timeout_minutes).

Definition default_timeout_minutes : Z := 30.

(** [_is_session_expired], [now] being its reading of the clock. *)
Definition _is_session_expired (now : datetime) (timeout : timedelta)
    (session : CallSession) : bool :=
  let time_diff :=
    match last (interactions session) with
    | None => now - start_time session
    | Some last_interaction => now - timestamp last_interaction
    end in
  bool_decide (time_diff > timeout).

(** [create_session], [now] being the clock reading taken for
    [start_time]. Returns the reference to the session. *)
Definition create_session (now : datetime) (call_id caller_number : string)
    (m : SessionManager) : nat * SessionManager :=
  match sessions m !! call_id with
  | Some existing => (existing, m)
  | None =>
      let session :=
        mkCallSession call_id caller_number now None ACTIVE [] ∅ None None None in
      let ref := length (heap m) in
      (ref, mkSessionManager (heap m ++ [session])
              (<[call_id := ref]> (sessions m)) (session_timeout m))
  end.

(** The default of the [status] argument of [end_session]. *)
Definition end_session_default_status : CallStatus := COMPLETED.

(** [end_session], [now] being the clock reading taken for [end_time]. *)
Definition end_session (now : datetime) (call_id : string) (status : CallStatus)
    (m : SessionManager) : bool * SessionManager :=
  match sessions m !! call_id with
  | None => (false, m)
  | Some ref =>
      let ended := fun session => set_status status (set_end_time (Some now) session) in
      (true, mkSessionManager (alter ended ref (heap m))
               (delete call_id (sessions m)) (session_timeout m))
  end.

(** [get_session]: [now] is the clock reading of the expiry check,
    [now_end] the later one taken by [end_session] when the session
    has expired. *)
Definition get_session (now now_end : datetime) (call_id : string)
    (m : SessionManager) : option nat * SessionManager :=
  match sessions m !! call_id with
  | Some ref =>
      match heap m !! ref with
      | Some session =>
          if _is_session_expired now (session_timeout m) session
          then (None, snd (end_session now_end call_id end_session_default_status m))
          else (Some ref, m)
      | None => (None, m)
      end
  | None => (None, m)
  end.

(** [cleanup_expired_sessions]: [now_of c] is the clock reading when
    session [c] is checked, [now_end_of c] the one when it is ended. *)
Definition cleanup_expired_sessions (now_of now_end_of : string -> datetime)
    (m : SessionManager) : nat * SessionManager :=
  let expired_ids :=
    omap (fun '(call_id, ref) =>
            match heap m !! ref with
            | Some session =>
                if _is_session_expired (now_of call_id) (session_timeout m) session
                then Some call_id else None
            | None => None
            end)
         (map_to_list (sessions m)) in
  (length expired_ids,
   foldl (fun m' call_id => snd (end_session (now_end_of call_id) call_id FAILED m'))
         m expired_ids).

(** [set_intent]; the clock readings are those of its [get_session]. *)
Definition set_intent (now now_end : datetime) (call_id intent : string)
    (m : SessionManager) : bool * SessionManager :=
  match get_session now now_end call_id m with
  | (None, m') => (false, m')
  | (Some ref, m') =>
      (true, mkSessionManager (alter (set_current_intent (Some intent)) ref (heap m'))
               (sessions m') (session_timeout m'))
  end.

(** [store_booking_data]: a missing or empty [booking_data] is replaced
    by a new dict, then the entries of the argument are written over
    it. *)
Definition store_booking_data (now now_end : datetime) (call_id : string)
    (booking_data_arg : gmap string PyVal) (m : SessionManager) : bool * SessionManager :=
  match get_session now now_end call_id m with
  | (None, m') => (false, m')
  | (Some ref, m') =>
      let store := fun session =>
        let current :=
          if opt_dict_truthy (booking_data session)
          then default ∅ (booking_data session) else ∅ in
        set_booking_data (Some (booking_data_arg ∪ current)) session in
      (true, mkSessionManager (alter store ref (heap m')) (sessions m') (session_timeout m'))
  end.

(** Every reference kept in [sessions] points to an object. *)
Definition refs_live (m : SessionManager) : Prop :=
  forall call_id ref, sessions m !! call_id = Some ref -> is_Some (heap m !! ref).

End Session_manager.

(* ===================================================================== *)
(** ** ai_connector.py: the mock policy                                   *)
(* ===================================================================== *)

Module Ai_connector.
Import Py Models.

(** The dict that [_mock_ai_response] returns. *)
Record Response : Type := mkResponse {
  r_call_id : string;
  r_message : string;
  r_intent : string;
  r_action : option string;
  r_confidence : Q;
  r_parameters : gmap string PyVal
}.

(** The local variables [intent], [message] and [action] of
    [_mock_ai_response]; [None] is a variable no assignment has bound. *)
Record Locals : Type := mkLocals {
  l_intent : option string;
  l_message : option string;
  l_action : option (option string)
}.

(** A branch that assigns [intent], [message] and [action]. *)
Definition assign_all (intent message : string) (action : option string) : Locals :=
  mkLocals (Some intent) (Some message) (Some action).

(** A branch that assigns [message] and [action] only. *)
Definition assign_message_action (message : string) (action : option string) : Locals :=
  mkLocals None (Some message) (Some action).

(** Reading a local variable. *)
Definition read_local {A : Type} (name : string) (v : option A) : result A :=
  match v with
  | Some a => inr a
  | None => raise (UnboundLocalError name)
  end.

(** The keyword lists of the six top-level branches, in source order. *)
Definition booking_words : list string := ["book"; "booking"; "reserve"; "ticket"].
Definition status_words : list string := ["status"; "check"; "flight status"].
Definition cancel_words : list string := ["cancel"; "cancellation"].
Definition domestic_words : list string := ["domestic"].
Definition international_words : list string := ["international"].
Definition agent_words : list string := ["agent"; "representative"; "human"].

(** The f-string of the confirmation prompt. *)
Definition confirm_message (booking : gmap string PyVal) : result string :=
  let? origin := getitem booking "origin" in
  let? destination := getitem booking "destination" in
  let? date := getitem booking "date" in
  let? passenger_name := getitem booking "passenger_name" in
  inr ("Perfect! Let me confirm: Flying from " +:+ format_val origin +:+
       " to " +:+ format_val destination +:+
       " on " +:+ format_val date +:+
       " for " +:+ format_val passenger_name +:+
       ". Should I proceed with the booking?").

(** The chain of tests on [booking]. It returns the dict after the
    assignment [booking[field] = user_input] and the locals the branch
    has bound (or the exception it raised). *)
Definition slot_filling (user_input : string) (booking : gmap string PyVal)
    : gmap string PyVal * result Locals :=
  if negb (dict_in "origin" booking) then
    (<["origin" := PStr user_input]> booking,
     inr (assign_message_action "Great! And where would you like to fly to?"
            (Some "collect_destination")))
  else if negb (dict_in "destination" booking) then
    (<["destination" := PStr user_input]> booking,
     inr (assign_message_action "When would you like to travel? Please provide the date."
            (Some "collect_date")))
  else if negb (dict_in "date" booking) then
    (<["date" := PStr user_input]> booking,
     inr (assign_message_action "May I have your full name for the booking?"
            (Some "collect_passenger_name")))
  else if negb (dict_in "passenger_name" booking) then
    (<["passenger_name" := PStr user_input]> booking,
     inr (assign_message_action "And your contact number?"
            (Some "collect_contact")))
  else if negb (dict_in "contact" booking) then
    let booking' := <["contact" := PStr user_input]> booking in
    (booking',
     let? message := confirm_message booking' in
     inr (assign_message_action message (Some "confirm_booking")))
  else
    (booking,
     inr (assign_all "unknown" "I didn't quite understand. Could you rephrase that?" None)).

(** The [return] statement: the dict display reads [call_id],
    [message], [intent] and [action] in this order. *)
Definition return_response (session_context : CallSession) (l : Locals) : result Response :=
  let? message := read_local "message" (l_message l) in
  let? intent := read_local "intent" (l_intent l) in
  let? action := read_local "action" (l_action l) in
  inr (mkResponse (call_id session_context) message intent action 0.85%Q ∅).

(** The [else] block of the keyword chain ("handle context-based
    responses"): slot filling when a booking is in progress, the
    fallback reply otherwise. [booking] is the very dict held by the
    session, so an assignment to it changes the session. *)
Definition context_branches (user_input : string) (session_context : CallSession)
    : CallSession * result Locals :=
  let unknown :=
    assign_all "unknown"
      "I didn't quite understand. You can say 'book a flight', 'check flight status', or 'cancel booking'."
      None in
  if bool_decide (current_intent session_context = Some "book_flight")
     && opt_dict_truthy (booking_data session_context)
  then
    match booking_data session_context with
    | Some booking =>
        let '(booking', locals) := slot_filling user_input booking in
        (set_booking_data (Some booking') session_context, locals)
    | None => (session_context, inr unknown)
    end
  else (session_context, inr unknown).

Section Mock.

(** [str.lower]. *)
Variable lower : string -> string.

(** The body of [_mock_ai_response] up to its [return]: the session
    object after the branch has run, and the locals it has bound. *)
Definition mock_branches (user_input : string) (session_context : CallSession)
    : CallSession * result Locals :=
  let user_input_lower := lower user_input in
  if any_in booking_words user_input_lower then
    (session_context,
     inr (assign_all "book_flight"
            "I can help you book a flight. Are you looking for a domestic or international flight?"
            (Some "collect_booking_type")))
  else if any_in status_words user_input_lower then
    (session_context,
     inr (assign_all "check_status"
            "I can check your flight status. Please provide your flight number."
            (Some "collect_flight_id")))
  else if any_in cancel_words user_input_lower then
    (session_context,
     inr (assign_all "cancel_booking"
            "I can help you cancel your booking. Please provide your booking ID."
            (Some "collect_booking_id")))
  else if any_in domestic_words user_input_lower then
    (session_context,
     inr (assign_all "domestic_flight"
            "Great! Where would you like to fly from?"
            (Some "collect_origin")))
  else if any_in international_words user_input_lower then
    (session_context,
     inr (assign_all "international_flight"
            "Perfect! Which city will you be departing from?"
            (Some "collect_origin")))
  else if any_in agent_words user_input_lower then
    (session_context,
     inr (assign_all "speak_to_agent"
            "I'll connect you with an agent. Please hold."
            (Some "transfer_agent")))
  else context_branches user_input session_context.

(** [_mock_ai_response]: the session object as the call leaves it,
    and the value returned or the exception raised. *)
Definition _mock_ai_response (user_input : string) (session_context : CallSession)
    : CallSession * result Response :=
  let '(session', locals) := mock_branches user_input session_context in
  (session', let? l := locals in return_response session' l).

End Mock.

End Ai_connector.

(* ===================================================================== *)
(** ** main.py: the transaction processors                                *)
(* ===================================================================== *)

Module Main.
Import Py Models.

(** The dict returned by [process_flight_booking]. *)
Record BookingResult : Type := mkBookingResult {
  b_success : bool;
  b_booking_id : string;
  b_message : string;
  b_details : FlightBooking
}.

(** The dict returned by [process_cancellation]. *)
Record CancellationResult : Type := mkCancellationResult {
  c_success : bool;
  c_booking_id : PyVal;
  c_message : string
}.

Section Pydantic.

(** pydantic's conversion of a supplied value to [str] and to [int]
    ([None]: the value is not acceptable for the type). Which values
    it converts depends on the installed version; the results below
    hold for each. *)
Variable coerce_str : PyVal -> option string.
Variable coerce_int : PyVal -> option Z.

(** A [str] field declared with [Field(...)]: required, with optional
    length bounds. The outcome is the validated value or the error
    pydantic reports for the field. *)
Definition required_str (data : gmap string PyVal) (name : string)
    (min_length max_length : option nat) : (string * FieldError) + string :=
  match data !! name with
  | None => inl (name, Missing)
  | Some v =>
      match coerce_str v with
      | None => inl (name, WrongType)
      | Some s =>
          if from_option (fun n => (String.length s <? n)%nat) false min_length
          then inl (name, TooShort)
          else if from_option (fun n => (n <? String.length s)%nat) false max_length
          then inl (name, TooLong)
          else inr s
      end
  end.

(** An [int] field with a default and bounds [ge], [le]. *)
Definition bounded_int (data : gmap string PyVal) (name : string)
    (dflt ge le : Z) : (string * FieldError) + Z :=
  match data !! name with
  | None => inr dflt
  | Some v =>
      match coerce_int v with
      | None => inl (name, WrongType)
      | Some n =>
          if bool_decide (n < ge) then inl (name, BelowMinimum)
          else if bool_decide (le < n) then inl (name, AboveMaximum)
          else inr n
      end
  end.

Definition field_errors {A : Type} (r : (string * FieldError) + A)
    : list (string * FieldError) :=
  match r with
  | inl e => [e]
  | inr _ => []
  end.

(** The errors pydantic finds in [data], field by field in the
    order of declaration. *)
Definition validation_errors (data : gmap string PyVal) : list (string * FieldError) :=
  (field_errors (required_str data "origin" (Some 3%nat) (Some 50%nat)) ++
   field_errors (required_str data "destination" (Some 3%nat) (Some 50%nat)) ++
   field_errors (required_str data "travel_date" None None) ++
   field_errors (required_str data "passenger_name" None None) ++
   field_errors (required_str data "passenger_contact" None None) ++
   field_errors (required_str data "booking_type" None None) ++
   field_errors (bounded_int data "num_passengers" 1 1 9))%list.

(** The constructor of [FlightBooking] applied to the entries of
    [data]: every field is validated, and the errors of all of them
    are raised together. *)
Definition FlightBooking_init (data : gmap string PyVal) : result FlightBooking :=
  match required_str data "origin" (Some 3%nat) (Some 50%nat),
        required_str data "destination" (Some 3%nat) (Some 50%nat),
        required_str data "travel_date" None None,
        required_str data "passenger_name" None None,
        required_str data "passenger_contact" None None,
        required_str data "booking_type" None None,
        bounded_int data "num_passengers" 1 1 9 with
  | inr o, inr d, inr t, inr pn, inr pc, inr bt, inr n =>
      inr (mkFlightBooking o d t pn pc bt n)
  | _, _, _, _, _, _, _ => raise (ValidationError (validation_errors data))
  end.

(** [process_flight_booking]; [stamp] is
    [datetime.now().strftime('%Y%m%d%H%M%S')]. *)
Definition process_flight_booking (stamp : string) (call_id : string)
    (data : gmap string PyVal) : result BookingResult :=
  let? booking := FlightBooking_init data in
  let booking_id := "BK" +:+ stamp in
  inr (mkBookingResult true booking_id
         ("Booking confirmed from " +:+ origin booking +:+ " to " +:+ destination booking)
         booking).

End Pydantic.

(** Conversions that accept a value of the field's own type only. *)
Definition strict_str (v : PyVal) : option string :=
  match v with
  | PStr s => Some s
  | _ => None
  end.

Definition strict_int (v : PyVal) : option Z :=
  match v with
  | PInt n => Some n
  | _ => None
  end.

(** The fields of [FlightBooking] declared without a default. *)
Definition required_fields : list string :=
  ["origin"; "destination"; "travel_date"; "passenger_name"; "passenger_contact";
   "booking_type"].

(** [process_cancellation] *)
Definition process_cancellation (call_id : string) (data : gmap string PyVal)
    : CancellationResult :=
  let booking_id := dict_get data "booking_id" in
  mkCancellationResult true booking_id "Booking cancelled successfully".

End Main.

Import Py Models Session_manager Ai_connector Main.

(* ===================================================================== *)
(** ** The tables of the specification                                    *)
(* ===================================================================== *)

(** One row of the routing table of the policy engine: the keyword set
    of a top-level branch with its intent, reply and next action. *)
Record Route : Type := mkRoute {
  rt_words : list string;
  rt_intent : string;
  rt_message : string;
  rt_action : string
}.

(** The six rows. *)
Definition booking_route : Route :=
  mkRoute booking_words "book_flight"
    "I can help you book a flight. Are you looking for a domestic or international flight?"
    "collect_booking_type".

Definition status_route : Route :=
  mkRoute status_words "check_status"
    "I can check your flight status. Please provide your flight number."
    "collect_flight_id".

Definition cancel_route : Route :=
  mkRoute cancel_words "cancel_booking"
    "I can help you cancel your booking. Please provide your booking ID."
    "collect_booking_id".

Definition domestic_route : Route :=
  mkRoute domestic_words "domestic_flight"
    "Great! Where would you like to fly from?"
    "collect_origin".

Definition international_route : Route :=
  mkRoute international_words "international_flight"
    "Perfect! Which city will you be departing from?"
    "collect_origin".

Definition agent_route : Route :=
  mkRoute agent_words "speak_to_agent"
    "I'll connect you with an agent. Please hold."
    "transfer_agent".

(** The table, in priority order: booking, status, cancellation,
    domestic, international, agent transfer. *)
Definition routing_table : list Route :=
  [booking_route; status_route; cancel_route; domestic_route; international_route;
   agent_route].

(** The reply a row stands for, on a given session. *)
Definition route_response (s : CallSession) (rt : Route) : Response :=
  mkResponse (call_id s) (rt_message rt) (rt_intent rt) (Some (rt_action rt)) 0.85%Q ∅.

(** A row matches a lower-cased utterance when one of its keywords
    occurs in it. *)
Definition route_matches (text : string) (rt : Route) : bool :=
  any_in (rt_words rt) text.

(** Some top-level keyword occurs in the lower-cased utterance. *)
Definition keyword_matched (text : string) : bool :=
  existsb (route_matches text) routing_table.

(** The slots of a booking, in the order they are asked for. *)
Definition slot_order : list string :=
  ["origin"; "destination"; "date"; "passenger_name"; "contact"].

(** The first slot absent from a booking. *)
Definition first_missing (booking : gmap string PyVal) : option string :=
  List.find (fun slot => negb (dict_in slot booking)) slot_order.

(** The confirmation summary read out once [contact] is filled. *)
Definition confirmation_summary (origin destination date passenger_name : PyVal) : string :=
  "Perfect! Let me confirm: Flying from " +:+ format_val origin +:+
  " to " +:+ format_val destination +:+
  " on " +:+ format_val date +:+
  " for " +:+ format_val passenger_name +:+
  ". Should I proceed with the booking?".

(** The slot that follows [slot] in an order of slots. *)
Fixpoint slot_after_in (order : list string) (slot : string) : option string :=
  match order with
  | a :: rest =>
      if String.eqb a slot then hd_error rest else slot_after_in rest slot
  | [] => None
  end.

Definition slot_after (slot : string) : option string := slot_after_in slot_order slot.

(** The question that asks for a slot during slot filling. *)
Definition question_for (slot : string) : string :=
  if String.eqb slot "destination" then "Great! And where would you like to fly to?"
  else if String.eqb slot "date" then
    "When would you like to travel? Please provide the date."
  else if String.eqb slot "passenger_name" then "May I have your full name for the booking?"
  else "And your contact number?".

(** The prompt that goes with filling a slot: the question for the slot
    that follows it in [slot_order], the confirmation summary after the
    last one. [booking] is the dict after the slot was filled. *)
Definition prompt_after (slot : string) (booking : gmap string PyVal) : string :=
  match slot_after slot with
  | Some next => question_for next
  | None =>
      confirmation_summary (dict_get booking "origin") (dict_get booking "destination")
        (dict_get booking "date") (dict_get booking "passenger_name")
  end.

(** The next-action tag that goes with filling a slot. *)
Definition action_after (slot : string) : string :=
  match slot_after slot with
  | Some next => "collect_" +:+ next
  | None => "confirm_booking"
  end.

(** The slot-filling path of the policy: no top-level keyword, the
    intent in progress is [book_flight], and there is a booking dict. *)
Definition on_slot_filling_path (lower : string -> string) (utterance : string)
    (s : CallSession) : Prop :=
  keyword_matched (lower utterance) = false /\
  current_intent s = Some "book_flight" /\
  is_Some (booking_data s).

(** A transaction result validates the presence of a booking id when it
    reports success only for a request that carries one. *)
Definition validates_booking_id (data : gmap string PyVal) (r : CancellationResult) : Prop :=
  c_success r = true -> is_Some (data !! "booking_id").

(** *** Concrete states used by the examples *)

Definition session_of (intent : option string) (booking : option (gmap string PyVal))
    : CallSession :=
  mkCallSession "CA1" "+919876543210" 0 None ACTIVE [] ∅ intent booking None.

(** A booking in progress with the origin already given. *)
Definition booking_mumbai : gmap string PyVal := <["origin" := PStr "Mumbai"]> ∅.

(** A booking whose destination was stored before its origin. *)
Definition booking_to_delhi : gmap string PyVal := <["destination" := PStr "Delhi"]> ∅.

(** A booking with the five slots filled. *)
Definition booking_full : gmap string PyVal :=
  <["origin" := PStr "Mumbai"]> (<["destination" := PStr "Delhi"]>
  (<["date" := PStr "2025-11-15"]> (<["passenger_name" := PStr "John Doe"]>
  (<["contact" := PStr "+919876543210"]> ∅)))).

(** A complete booking request, and the same without its origin. *)
Definition request_no_origin : gmap string PyVal :=
  <["destination" := PStr "Delhi"]> (<["travel_date" := PStr "2025-11-15"]>
  (<["passenger_name" := PStr "John Doe"]> (<["passenger_contact" := PStr "+919876543210"]>
  (<["booking_type" := PStr "domestic"]> (<["num_passengers" := PInt 1]> ∅))))).

Definition request_full : gmap string PyVal :=
  <["origin" := PStr "Mumbai"]> request_no_origin.

(** A manager with the default timeout holding one session, created at
    time 0 and never used. *)
Definition one_idle_session : SessionManager :=
  snd (create_session 0 "CA1" "+919876543210" (init default_timeout_minutes)).

(* ===================================================================== *)
(** ** session_manager.py: the other operations                           *)
(* ===================================================================== *)

Definition set_context (c : gmap string PyVal) (s : CallSession) : CallSession :=
  mkCallSession (call_id s) (caller_number s) (start_time s) (end_time s) (status s)
    (interactions s) c (current_intent s) (booking_data s) (customer_id s).

Definition set_interactions (l : list Interaction) (s : CallSession) : CallSession :=
  mkCallSession (call_id s) (caller_number s) (start_time s) (end_time s) (status s)
    l (context s) (current_intent s) (booking_data s) (customer_id s).

(** [update_session]: [context.update(updates)] writes the entries of
    [updates] over the context. The clock readings are those of its
    [get_session]. *)
Definition update_session (now now_end : datetime) (call_id : string)
    (updates : gmap string PyVal) (m : SessionManager) : bool * SessionManager :=
  match get_session now now_end call_id m with
  | (None, m') => (false, m')
  | (Some ref, m') =>
      (true, mkSessionManager
               (alter (fun session => set_context (updates ∪ context session) session) ref (heap m'))
               (sessions m') (session_timeout m'))
  end.

(** [add_interaction]: [now] and [now_end] are the clock readings of its
    [get_session], [now_stamp] the later one that becomes the timestamp
    of the interaction. *)
Definition add_interaction (now now_end now_stamp : datetime) (call_id : string)
    (speaker message : string) (input_type : option InputType) (m : SessionManager)
    : bool * SessionManager :=
  match get_session now now_end call_id m with
  | (None, m') => (false, m')
  | (Some ref, m') =>
      let interaction := mkInteraction now_stamp speaker message input_type in
      (true, mkSessionManager
               (alter (fun session =>
                         set_interactions (interactions session ++ [interaction]) session)
                      ref (heap m'))
               (sessions m') (session_timeout m'))
  end.

(** The slice [l[k:]] of a list, for any integer [k]: a negative [k]
    counts from the end, and a bound outside the list is clipped. *)
Definition slice_from {A : Type} (k : Z) (l : list A) : list A :=
  let len := Z.of_nat (length l) in
  let start := if (k <? 0)%Z then Z.max (len + k) 0 else Z.min k len in
  drop (Z.to_nat start) l.

(** [get_conversation_history]: [last_n] is [None] or an [int]; [None]
    and [0] are false in the test [if last_n]. *)
Definition get_conversation_history (now now_end : datetime) (call_id : string)
    (last_n : option Z) (m : SessionManager) : list Interaction * SessionManager :=
  match get_session now now_end call_id m with
  | (None, m') => ([], m')
  | (Some ref, m') =>
      match heap m' !! ref with
      | Some session =>
          let interactions := interactions session in
          match last_n with
          | Some n => if bool_decide (n = 0) then (interactions, m')
                      else (slice_from (- n) interactions, m')
          | None => (interactions, m')
          end
      | None => ([], m')
      end
  end.

(** [get_active_session_count] *)
Definition get_active_session_count (m : SessionManager) : nat := size (sessions m).

(** [get_session_duration]: [now_read] is the clock reading taken when
    the session has no [end_time]. *)
Definition get_session_duration (now now_end now_read : datetime) (call_id : string)
    (m : SessionManager) : option timedelta * SessionManager :=
  match get_session now now_end call_id m with
  | (None, m') => (None, m')
  | (Some ref, m') =>
      match heap m' !! ref with
      | Some session =>
          let end_ := default now_read (end_time session) in
          (Some (end_ - start_time session), m')
      | None => (None, m')
      end
  end.

(** A call of one of the manager's operations, with the clock readings
    it takes and its arguments. *)
Inductive Op : Type :=
| OpCreate (now : datetime) (call_id caller_number : string)
| OpGet (now now_end : datetime) (call_id : string)
| OpUpdate (now now_end : datetime) (call_id : string) (updates : gmap string PyVal)
| OpAddInteraction (now now_end now_stamp : datetime) (call_id speaker message : string)
    (input_type : option InputType)
| OpHistory (now now_end : datetime) (call_id : string) (last_n : option Z)
| OpSetIntent (now now_end : datetime) (call_id intent : string)
| OpStoreBooking (now now_end : datetime) (call_id : string) (booking : gmap string PyVal)
| OpEnd (now : datetime) (call_id : string) (status : CallStatus)
| OpCleanup (now_of now_end_of : string -> datetime)
| OpDuration (now now_end now_read : datetime) (call_id : string).

(** The manager after a call. *)
Definition apply_op (op : Op) (m : SessionManager) : SessionManager :=
  match op with
  | OpCreate now c n => snd (create_session now c n m)
  | OpGet now now_end c => snd (get_session now now_end c m)
  | OpUpdate now now_end c u => snd (update_session now now_end c u m)
  | OpAddInteraction now now_end now_stamp c sp msg it =>
      snd (add_interaction now now_end now_stamp c sp msg it m)
  | OpHistory now now_end c n => snd (get_conversation_history now now_end c n m)
  | OpSetIntent now now_end c i => snd (set_intent now now_end c i m)
  | OpStoreBooking now now_end c b => snd (store_booking_data now now_end c b m)
  | OpEnd now c st => snd (end_session now c st m)
  | OpCleanup now_of now_end_of => snd (cleanup_expired_sessions now_of now_end_of m)
  | OpDuration now now_end now_read c => snd (get_session_duration now now_end now_read c m)
  end.

(** The manager after a sequence of calls, the first call first. *)
Definition run (ops : list Op) (m : SessionManager) : SessionManager :=
  foldl (fun m' op => apply_op op m') m ops.

(** The call id a call is about; the sweep is about all of them. *)
Definition op_call_id (op : Op) : option string :=
  match op with
  | OpCreate _ c _ | OpGet _ _ c | OpUpdate _ _ c _ | OpAddInteraction _ _ _ c _ _ _
  | OpHistory _ _ c _ | OpSetIntent _ _ c _ | OpStoreBooking _ _ c _ | OpEnd _ c _
  | OpDuration _ _ _ c => Some c
  | OpCleanup _ _ => None
  end.

(** The state of the dictionary and of the objects it refers to: every
    entry refers to a session object that carries the entry's call id,
    is [ACTIVE] and has no end time; and every session object without an
    end time is the one its call id is mapped to. *)
Definition active_set_ok (m : SessionManager) : Prop :=
  (forall c ref, sessions m !! c = Some ref ->
     exists s, heap m !! ref = Some s /\ call_id s = c /\ status s = ACTIVE /\
               end_time s = None) /\
  (forall ref s, heap m !! ref = Some s -> end_time s = None ->
     sessions m !! call_id s = Some ref).

(** [s'] is a later state of the session object [s]: it has the call
    id, caller number and start time of [s], and its history starts
    with the history of [s]. *)
Definition session_extends (s s' : CallSession) : Prop :=
  call_id s' = call_id s /\
  caller_number s' = caller_number s /\
  start_time s' = start_time s /\
  interactions s `prefix_of` interactions s'.

(** A manager with two sessions, the second created a minute after the
    first. *)
Definition two_sessions : SessionManager :=
  snd (create_session (minutes 1) "CA2" "+15550100" one_idle_session).

(* ===================================================================== *)
(** ** ai_connector.py: the helpers of the other back ends                *)
(* ===================================================================== *)

Section Intent.

(** [str.lower]. *)
Variable lower : string -> string.

(** [_extract_intent]; the reply of the model is not looked at. *)
Definition _extract_intent (user_input ai_response : string) : string :=
  let user_lower := lower user_input in
  if str_in "book" user_lower then "book_flight"
  else if str_in "status" user_lower || str_in "check" user_lower then "check_status"
  else if str_in "cancel" user_lower then "cancel_booking"
  else "general_inquiry".

End Intent.

(** The [action_map] of [_determine_action]. *)
Definition action_map : gmap string string :=
  <["book_flight" := "collect_booking_type"]>
  (<["check_status" := "collect_flight_id"]>
  (<["cancel_booking" := "collect_booking_id"]>
  (<["speak_to_agent" := "transfer_agent"]> ∅))).

(** [_determine_action]: [None] and the empty string are false in the
    test [if intent]. *)
Definition _determine_action (intent : option string) : option string :=
  match intent with
  | Some i => if bool_decide (i = "") then None else action_map !! i
  | None => None
  end.

(* ===================================================================== *)
(** ** main.py: the status check                                          *)
(* ===================================================================== *)

(** Truth value of a value. *)
Definition py_truthy (v : PyVal) : bool :=
  match v with
  | PNone => false
  | PBool b => b
  | PInt n => negb (n =? 0)%Z
  | PStr s => negb (String.eqb s "")
  end.

(** The mock flight table of [process_status_check]. *)
Definition flights : gmap string (gmap string PyVal) :=
  <["AI1" := <["status" := PStr "On Time"]> (<["origin" := PStr "Mumbai"]>
               (<["destination" := PStr "Delhi"]> ∅))]>
  (<["AI2" := <["status" := PStr "Delayed"]> (<["origin" := PStr "Chennai"]>
               (<["destination" := PStr "Bangalore"]> ∅))]> ∅).

(** [flight_id in flights], for a value of any type: only a string can
    be a key of the table. *)
Definition flight_of (flight_id : PyVal) : option (gmap string PyVal) :=
  match flight_id with
  | PStr s => flights !! s
  | _ => None
  end.

(** [process_status_check]. In the dict display the entries of the
    flight come last, so they would win over the two keys before
    them. *)
Definition process_status_check (call_id : string) (data : gmap string PyVal)
    : gmap string PyVal :=
  let flight_id := dict_get data "flight_id" in
  match flight_of flight_id with
  | Some flight => flight ∪ <["success" := PBool true]> (<["flight_id" := flight_id]> ∅)
  | None => <["success" := PBool false]> (<["message" := PStr "Flight not found"]> ∅)
  end.

(* ===================================================================== *)
(** ** twilio_integration.py: the request parser                          *)
(* ===================================================================== *)

(** The dict returned by [parse_twilio_request]. *)
Record TwilioRequest : Type := mkTwilioRequest {
  tw_call_id : PyVal;
  tw_caller : PyVal;
  tw_user_input : PyVal;
  tw_input_type : string;
  tw_call_status : PyVal;
  tw_from_country : PyVal;
  tw_to_number : PyVal
}.

(** [a or b] *)
Definition py_or (a b : PyVal) : PyVal := if py_truthy a then a else b.

(** [parse_twilio_request] *)
Definition parse_twilio_request (form_data : gmap string PyVal) : TwilioRequest :=
  mkTwilioRequest
    (dict_get form_data "CallSid")
    (dict_get form_data "From")
    (py_or (dict_get form_data "SpeechResult") (dict_get form_data "Digits"))
    (if py_truthy (dict_get form_data "SpeechResult") then "speech" else "dtmf")
    (dict_get form_data "CallStatus")
    (dict_get form_data "FromCountry")
    (dict_get form_data "To").

(* ===================================================================== *)
(** ** vxml_handler.py: escaping                                          *)
(* ===================================================================== *)

(** [text.replace(old, new)] for a pattern [old] of one character. *)
Fixpoint replace_char (old : ascii) (new : string) (text : string) : string :=
  match text with
  | EmptyString => EmptyString
  | String c rest =>
      if Ascii.eqb c old then new +:+ replace_char old new rest
      else String c (replace_char old new rest)
  end.

(** The double quote character. *)
Definition dquote : ascii := "034"%char.

(** The [replacements] of [_escape_xml], in the order of the dict. *)
Definition replacements : list (ascii * string) :=
  [("&"%char, "&amp;"); ("<"%char, "&lt;"); (">"%char, "&gt;"); (dquote, "&quot;");
   ("'"%char, "&apos;")].

(** [_escape_xml]: one replacement after the other, over the whole
    text. *)
Definition _escape_xml (text : string) : string :=
  foldl (fun t '(old, new) => replace_char old new t) text replacements.

(** The entity of a character, or the character itself. *)
Definition escape_char (c : ascii) : string :=
  if Ascii.eqb c "&"%char then "&amp;"
  else if Ascii.eqb c "<"%char then "&lt;"
  else if Ascii.eqb c ">"%char then "&gt;"
  else if Ascii.eqb c dquote then "&quot;"
  else if Ascii.eqb c "'"%char then "&apos;"
  else String c EmptyString.

(** A text escaped character by character. *)
Fixpoint escape_each (text : string) : string :=
  match text with
  | EmptyString => EmptyString
  | String c rest => escape_char c +:+ escape_each rest
  end.

(** The characters that markup must not contain as such. *)
Definition markup_chars : list ascii := ["<"%char; ">"%char; dquote; "'"%char].

(* ===================================================================== *)
(** ** Turns of the policy in a row                                       *)
(* ===================================================================== *)

(** The session object after the policy has run on a sequence of
    utterances, the first one first; a turn that raises still leaves its
    assignment in the session. *)
Definition after_turns (lower : string -> string) (utterances : list string)
    (s : CallSession) : CallSession :=
  foldl (fun s' u => fst (_mock_ai_response lower u s')) s utterances.

(** The turn of slot filling: no keyword, a booking in progress whose
    dict is not empty and lacks a slot. *)
Definition fills_a_slot (lower : string -> string) (u : string) (s : CallSession) : Prop :=
  keyword_matched (lower u) = false /\
  current_intent s = Some "book_flight" /\
  exists b, booking_data s = Some b /\ b <> ∅ /\ is_Some (first_missing b).

(** The keyword lists without the words that contain another word of
    the same list. *)
Definition booking_words_min : list string := ["book"; "reserve"; "ticket"].
Definition status_words_min : list string := ["status"; "check"].
Definition cancel_words_min : list string := ["cancel"].

(* ===================================================================== *)
(** ** vxml_handler.py: the confirmation page                             *)
(* ===================================================================== *)

(** The texts of one double quote and of one line break. *)
Definition dq : string := String dquote EmptyString.
Definition nl : string := String "010"%char EmptyString.

(** The f-string of [generate_confirmation_vxml], line by line. *)
Definition confirmation_page (base_url call_id prompt : string) : string :=
  String.concat nl [
    "<?xml version=" +:+ dq +:+ "1.0" +:+ dq +:+ " encoding=" +:+ dq +:+ "UTF-8" +:+ dq +:+ "?>";
    "<vxml version=" +:+ dq +:+ "2.1" +:+ dq +:+ ">";
    "    <form id=" +:+ dq +:+ "confirmation" +:+ dq +:+ ">";
    "        <block>";
    "            <prompt>" +:+ prompt +:+ "</prompt>";
    "        </block>";
    "        ";
    "        <field name=" +:+ dq +:+ "continue_response" +:+ dq +:+ ">";
    "            <grammar type=" +:+ dq +:+ "application/srgs+xml" +:+ dq +:+ " mode=" +:+ dq +:+ "voice" +:+ dq +:+ ">";
    "                <![CDATA[";
    "                #JSGF V1.0;";
    "                grammar yesno;";
    "                public <yesno> = yes | no | sure | nope;";
    "                ]]>";
    "            </grammar>";
    "            ";
    "            <filled>";
    "                <if cond=" +:+ dq +:+ "continue_response == 'yes' || continue_response == 'sure'" +:+ dq +:+ ">";
    "                    <submit ";
    "                        next=" +:+ dq +:+ base_url +:+ "/ivr/user-input" +:+ dq +:+ " ";
    "                        method=" +:+ dq +:+ "post" +:+ dq +:+ " ";
    "                        enctype=" +:+ dq +:+ "application/json" +:+ dq +:+ ">";
    "                        <param name=" +:+ dq +:+ "call_id" +:+ dq +:+ " expr=" +:+ dq +:+ "'" +:+ call_id +:+ "'" +:+ dq +:+ "/>";
    "                        <param name=" +:+ dq +:+ "user_input" +:+ dq +:+ " expr=" +:+ dq +:+ "'yes'" +:+ dq +:+ "/>";
    "                    </submit>";
    "                <else/>";
    "                    <prompt>Thank you for calling Air India. Goodbye!</prompt>";
    "                    <disconnect/>";
    "                </if>";
    "            </filled>";
    "        </field>";
    "    </form>";
    "</vxml>"
  ].

(** The exception of a method call on a value that is not a [str]. *)
Inductive VxmlError : Type :=
| AttributeError (attribute : string).

(** [generate_confirmation_vxml]; [base_url] is [self.base_url]. The
    message goes through [_escape_xml], whose [text.replace] needs a
    [str]. *)
Definition generate_confirmation_vxml (base_url call_id : string)
    (transaction_result : gmap string PyVal) : VxmlError + string :=
  let success := default (PBool false) (transaction_result !! "success") in
  match default (PStr "Transaction completed") (transaction_result !! "message") with
  | PStr text =>
      let message := _escape_xml text in
      let prompt :=
        if py_truthy success
        then message +:+ ". Is there anything else I can help you with?"
        else "Sorry, there was an issue: " +:+ message +:+ ". Would you like to try again?" in
      inr (confirmation_page base_url call_id prompt)
  | _ => inl (AttributeError "replace")
  end.

(* ===================================================================== *)
(** ** Properties                                                         *)
(* ===================================================================== *)

(** *** The substring test *)

Lemma prefix_true_app (sub s : string) :
  String.prefix sub s = true <-> exists post, s = sub +:+ post.
Proof.
  revert s. induction sub as [|c sub IH]; intros s.
  - split; [intros _; by exists s | by destruct s].
  - destruct s as [|d s]; simpl.
    + split; [done | intros [post H]; discriminate].
    + destruct (Ascii.ascii_dec c d) as [->|Hne].
      * rewrite IH. split; intros [post H]; exists post; [by rewrite H | by injection H].
      * split; [done | intros [post H]; injection H as H1 H2; congruence].
Qed.

(** [str_in sub s] holds exactly when [s] is some text, then [sub], then
    some text. *)
Lemma str_in_occurs (sub s : string) :
  str_in sub s = true <-> exists pre post, s = pre +:+ sub +:+ post.
Proof.
  induction s as [|c s IH]; cbn [str_in].
  - rewrite orb_false_r, prefix_true_app. split.
    + intros [post H]. by exists "", post.
    + intros [pre [post H]]. destruct pre; simpl in H; [by exists post | discriminate].
  - rewrite orb_true_iff, prefix_true_app, IH. split.
    + intros [[post H] | [pre [post H]]].
      * by exists "", post.
      * exists (String c pre), post. simpl. by rewrite H.
    + intros [pre [post H]]. destruct pre as [|d pre]; simpl in H.
      * left. by exists post.
      * right. injection H as _ H. by exists pre, post.
Qed.

(** *** Lists searched in order *)

Lemma find_first_match {A : Type} (f : A -> bool) (pre : list A) (x : A) (post : list A) :
  Forall (fun y => f y = false) pre -> f x = true ->
  List.find f (pre ++ x :: post) = Some x.
Proof.
  induction pre as [|y pre IH]; simpl; intros Hpre Hx.
  - by rewrite Hx.
  - inversion Hpre as [|? ? Hy Hrest]; subst. rewrite Hy. by apply IH.
Qed.

Lemma existsb_find {A : Type} (f : A -> bool) (l : list A) :
  existsb f l = true -> exists x, List.find f l = Some x.
Proof.
  induction l as [|y l IH]; simpl; [done |].
  destruct (f y); [by exists y | exact IH].
Qed.

Lemma existsb_false_find {A : Type} (f : A -> bool) (l : list A) :
  existsb f l = false -> List.find f l = None.
Proof.
  induction l as [|y l IH]; simpl; [done |].
  destruct (f y); [done | exact IH].
Qed.

(** *** Session objects *)

Lemma set_booking_data_same (s : CallSession) (b : gmap string PyVal) :
  booking_data s = Some b -> set_booking_data (Some b) s = s.
Proof. destruct s; simpl; intros ->; reflexivity. Qed.

(** *** The keyword chain and the routing table *)

(** The chain of [if]/[elif] tests takes the branch of the first row of
    the table that matches, and that branch binds the row's intent,
    reply and action and leaves the session alone. *)
Lemma mock_branches_route (lower : string -> string) (u : string) (s : CallSession)
    (rt : Route) :
  List.find (route_matches (lower u)) routing_table = Some rt ->
  mock_branches lower u s =
    (s, inr (assign_all (rt_intent rt) (rt_message rt) (Some (rt_action rt)))).
Proof.
  cbv beta iota zeta delta
    [mock_branches routing_table route_matches List.find rt_words booking_route status_route
     cancel_route domestic_route international_route agent_route].
  repeat (match goal with
          | |- context [any_in ?w ?t] => destruct (any_in w t)
          end; [intros [= <-]; reflexivity |]).
  discriminate.
Qed.

(** With no row matching, the chain reaches its [else] block. *)
Lemma mock_branches_no_route (lower : string -> string) (u : string) (s : CallSession) :
  keyword_matched (lower u) = false ->
  mock_branches lower u s = context_branches u s.
Proof.
  cbv beta iota zeta delta
    [keyword_matched mock_branches routing_table route_matches existsb rt_words booking_route
     status_route cancel_route domestic_route international_route agent_route].
  repeat (match goal with
          | |- context [any_in ?w ?t] => destruct (any_in w t)
          end; [discriminate |]).
  reflexivity.
Qed.

Lemma mock_response_route (lower : string -> string) (u : string) (s : CallSession)
    (rt : Route) :
  List.find (route_matches (lower u)) routing_table = Some rt ->
  _mock_ai_response lower u s = (s, inr (route_response s rt)).
Proof.
  intros H. unfold _mock_ai_response. by rewrite (mock_branches_route _ _ _ _ H).
Qed.

(** A keyword is matched exactly when the lower-cased utterance
    contains a word of some row of the table. *)
Lemma keyword_matched_occurs (text : string) :
  keyword_matched text = true <->
  exists rt word pre post,
    In rt routing_table /\ In word (rt_words rt) /\ text = pre +:+ word +:+ post.
Proof.
  unfold keyword_matched, route_matches, any_in. rewrite existsb_exists. split.
  - intros (rt & Hrt & Hw). apply existsb_exists in Hw as (word & Hword & Hin).
    apply str_in_occurs in Hin as (pre & post & ->). by exists rt, word, pre, post.
  - intros (rt & word & pre & post & Hrt & Hword & ->).
    exists rt. split; [done |]. apply existsb_exists. exists word. split; [done |].
    apply str_in_occurs. by exists pre, post.
Qed.

(** The [return] statement has one confidence literal, whatever the
    locals are. *)
Lemma return_response_confidence (s : CallSession) (l : Locals) (r : Response) :
  return_response s l = inr r -> r_confidence r = 0.85%Q.
Proof.
  unfold return_response, read_local, raise.
  destruct (l_message l), (l_intent l), (l_action l); try discriminate.
  by intros [= <-].
Qed.

Lemma mock_response_confidence (lower : string -> string) (u : string) (s : CallSession)
    (r : Response) :
  snd (_mock_ai_response lower u s) = inr r -> r_confidence r = 0.85%Q.
Proof.
  unfold _mock_ai_response.
  destruct (mock_branches lower u s) as [s' [e | l]]; simpl; [discriminate |].
  apply return_response_confidence.
Qed.

(** An utterance with a booking keyword is routed to the booking branch,
    whichever other keywords it contains. *)
Lemma mock_booking_keyword_wins (lower : string -> string) (u : string) (s : CallSession) :
  any_in booking_words (lower u) = true ->
  _mock_ai_response lower u s = (s, inr (route_response s booking_route)) /\
  r_intent (route_response s booking_route) = "book_flight" /\
  r_action (route_response s booking_route) = Some "collect_booking_type".
Proof.
  intros H. split; [| done].
  apply mock_response_route.
  apply (find_first_match _ [] booking_route); [constructor | exact H].
Qed.

(** C4. The policy lower-cases the utterance and tests the keyword sets
    in the order of the routing table (booking, status, cancellation,
    domestic, international, agent transfer). The first row that matches
    wins: when no earlier row matches and row [rt] does, the result is
    the fixed intent, reply and action of [rt], whichever later rows
    match as well, and the session is left as it was. *)
Theorem mock_first_matching_branch_wins (lower : string -> string) (u : string)
    (s : CallSession) (earlier : list Route) (rt : Route) (later : list Route) :
  routing_table = (earlier ++ rt :: later)%list ->
  Forall (fun r => route_matches (lower u) r = false) earlier ->
  route_matches (lower u) rt = true ->
  _mock_ai_response lower u s = (s, inr (route_response s rt)) /\
  r_intent (route_response s rt) = rt_intent rt /\
  r_message (route_response s rt) = rt_message rt /\
  r_action (route_response s rt) = Some (rt_action rt).
Proof.
  intros Htable Hearlier Hrt. split; [| done].
  apply mock_response_route. rewrite Htable.
  by apply find_first_match.
Qed.

(** The status row wins over the cancellation row that also matches. *)
Lemma mock_first_matching_branch_wins_witness :
  let u := "Please CHECK the status or cancel" in
  let s := session_of None None in
  routing_table = ([booking_route] ++ status_route :: [cancel_route; domestic_route;
                                                        international_route; agent_route])%list /\
  Forall (fun r => route_matches (lower_ascii u) r = false) [booking_route] /\
  route_matches (lower_ascii u) status_route = true /\
  route_matches (lower_ascii u) cancel_route = true /\
  _mock_ai_response lower_ascii u s = (s, inr (route_response s status_route)).
Proof.
  cbv zeta.
  assert (Hb : Forall (fun r => route_matches
                         (lower_ascii "Please CHECK the status or cancel") r = false)
                 [booking_route]).
  { constructor; [vm_compute; reflexivity | constructor]. }
  split; [reflexivity |]. split; [exact Hb |].
  split; [vm_compute; reflexivity |]. split; [vm_compute; reflexivity |].
  apply (mock_first_matching_branch_wins lower_ascii "Please CHECK the status or cancel"
           (session_of None None) [booking_route] status_route
           [cancel_route; domestic_route; international_route; agent_route]);
    [reflexivity | exact Hb | vm_compute; reflexivity].
Defined.

(** C7 (as amended). An utterance matched by a top-level keyword branch
    gets confidence exactly 0.85; and 0.85 is the confidence of every
    result the policy returns, on whichever path: there is no separate
    slot-filling confidence. *)
Theorem mock_confidence_constant (lower : string -> string) (u : string) (s : CallSession) :
  keyword_matched (lower u) = true ->
  (exists r, _mock_ai_response lower u s = (s, inr r) /\ r_confidence r = 0.85%Q) /\
  (forall u' s' r', snd (_mock_ai_response lower u' s') = inr r' ->
                    r_confidence r' = 0.85%Q).
Proof.
  intros Hkw. split.
  - destruct (existsb_find _ _ Hkw) as [rt Hrt].
    exists (route_response s rt). split; [by apply mock_response_route | done].
  - intros u' s' r'. apply mock_response_confidence.
Qed.

Lemma mock_confidence_constant_witness :
  let s := session_of None None in
  keyword_matched (lower_ascii "check flight status") = true /\
  (exists r, _mock_ai_response lower_ascii "check flight status" s = (s, inr r) /\
             r_confidence r = 0.85%Q).
Proof.
  cbv zeta. split; [vm_compute; reflexivity |].
  apply (mock_confidence_constant lower_ascii "check flight status" (session_of None None)).
  vm_compute; reflexivity.
Defined.

(** C7 as stated fails: on the slot-filling path (booking in progress,
    no keyword) a returned result carries the same confidence as a
    keyword match. *)
Lemma mock_confidence_same_on_slot_filling_path :
  let s := session_of (Some "book_flight") (Some booking_full) in
  keyword_matched (lower_ascii "book a flight") = true /\
  on_slot_filling_path lower_ascii "hello" s /\
  exists r_kw r_slot,
    snd (_mock_ai_response lower_ascii "book a flight" s) = inr r_kw /\
    snd (_mock_ai_response lower_ascii "hello" s) = inr r_slot /\
    r_confidence r_kw = r_confidence r_slot.
Proof.
  cbv zeta. split; [vm_compute; reflexivity |].
  split; [repeat split; try (vm_compute; reflexivity); by eexists |].
  eexists _, _. repeat split; vm_compute; reflexivity.
Qed.

(** *** Slot filling *)

Lemma dict_in_lookup (k : string) (b : gmap string PyVal) :
  dict_in k b = match b !! k with Some _ => true | None => false end.
Proof. unfold dict_in. by destruct (b !! k). Qed.

Lemma first_missing_absent (b : gmap string PyVal) (f : string) :
  first_missing b = Some f -> b !! f = None /\ f ∈ slot_order.
Proof.
  unfold first_missing. intros H. apply find_some in H as [Hin Hf].
  rewrite dict_in_lookup in Hf. split.
  - by destruct (b !! f).
  - by apply list_elem_of_In.
Qed.

(** The chain of tests on the booking fills the first missing slot and
    binds the prompt and the action that go with it; it binds no
    intent. *)
Lemma slot_filling_fills (u : string) (b : gmap string PyVal) (f : string) :
  first_missing b = Some f ->
  slot_filling u b =
    (<[f := PStr u]> b,
     inr (assign_message_action (prompt_after f (<[f := PStr u]> b)) (Some (action_after f)))).
Proof.
  unfold first_missing, slot_filling, slot_order, List.find.
  rewrite !dict_in_lookup.
  destruct (b !! "origin") as [o|] eqn:Ho; simpl; [| intros [= <-]; reflexivity].
  destruct (b !! "destination") as [d|] eqn:Hd; simpl; [| intros [= <-]; reflexivity].
  destruct (b !! "date") as [dt|] eqn:Hdt; simpl; [| intros [= <-]; reflexivity].
  destruct (b !! "passenger_name") as [pn|] eqn:Hpn; simpl; [| intros [= <-]; reflexivity].
  destruct (b !! "contact") as [c|] eqn:Hc; simpl; [discriminate |].
  intros [= <-].
  unfold confirm_message, getitem, prompt_after, dict_get; simpl.
  rewrite !lookup_insert_ne, Ho, Hd, Hdt, Hpn by done.
  reflexivity.
Qed.

(** With the five slots present the chain changes nothing and binds the
    fallback reply. *)
Lemma slot_filling_complete (u : string) (b : gmap string PyVal) :
  first_missing b = None ->
  slot_filling u b =
    (b, inr (assign_all "unknown" "I didn't quite understand. Could you rephrase that?" None)).
Proof.
  unfold first_missing, slot_filling, slot_order, List.find.
  rewrite !dict_in_lookup.
  repeat (match goal with
          | |- context [b !! ?k] => destruct (b !! k); simpl; [| discriminate]
          end).
  reflexivity.
Qed.

(** The guard of the slot-filling block holds for the intent
    [book_flight] and a booking dict that is not empty. *)
Lemma context_branches_booking (u : string) (s : CallSession) (b : gmap string PyVal) :
  current_intent s = Some "book_flight" ->
  booking_data s = Some b ->
  b <> ∅ ->
  context_branches u s =
    (set_booking_data (Some (fst (slot_filling u b))) s, snd (slot_filling u b)).
Proof.
  intros Hi Hb Hne. unfold context_branches.
  rewrite Hb, Hi. simpl. unfold dict_truthy.
  rewrite bool_decide_eq_false_2 by done. simpl.
  by destruct (slot_filling u b).
Qed.

(** A turn of slot filling that fills a slot: the session gets the slot,
    and the [return] statement finds [intent] unbound. *)
Lemma mock_slot_turn (lower : string -> string) (u : string) (s : CallSession)
    (b : gmap string PyVal) (f : string) :
  keyword_matched (lower u) = false ->
  current_intent s = Some "book_flight" ->
  booking_data s = Some b ->
  b <> ∅ ->
  first_missing b = Some f ->
  mock_branches lower u s =
    (set_booking_data (Some (<[f := PStr u]> b)) s,
     inr (assign_message_action (prompt_after f (<[f := PStr u]> b)) (Some (action_after f))))
  /\ _mock_ai_response lower u s =
    (set_booking_data (Some (<[f := PStr u]> b)) s, inl (UnboundLocalError "intent")).
Proof.
  intros Hkw Hi Hb Hne Hf.
  assert (Hbr : mock_branches lower u s =
    (set_booking_data (Some (<[f := PStr u]> b)) s,
     inr (assign_message_action (prompt_after f (<[f := PStr u]> b))
            (Some (action_after f))))).
  { rewrite (mock_branches_no_route _ _ _ Hkw).
    rewrite (context_branches_booking _ _ _ Hi Hb Hne).
    by rewrite (slot_filling_fills _ _ _ Hf). }
  split; [exact Hbr |].
  unfold _mock_ai_response. by rewrite Hbr.
Qed.

Lemma mock_response_session (lower : string -> string) (u : string) (s : CallSession) :
  fst (_mock_ai_response lower u s) = fst (mock_branches lower u s).
Proof. unfold _mock_ai_response. by destruct (mock_branches lower u s). Qed.

(** What the [else] block does to the session: nothing, or it adds the
    first missing slot to a booking in progress. *)
Lemma context_branches_session (u : string) (s : CallSession) :
  fst (context_branches u s) = s \/
  exists b f,
    current_intent s = Some "book_flight" /\ booking_data s = Some b /\ b <> ∅ /\
    first_missing b = Some f /\
    fst (context_branches u s) = set_booking_data (Some (<[f := PStr u]> b)) s.
Proof.
  destruct (decide (current_intent s = Some "book_flight")) as [Hi | Hi].
  - destruct (booking_data s) as [b |] eqn:Hb.
    + destruct (decide (b = ∅)) as [-> | Hne].
      * left. unfold context_branches. by rewrite Hb, Hi.
      * rewrite (context_branches_booking _ _ _ Hi Hb Hne). simpl.
        destruct (first_missing b) as [f |] eqn:Hf.
        -- right. exists b, f. by rewrite (slot_filling_fills _ _ _ Hf).
        -- left. rewrite (slot_filling_complete _ _ Hf). simpl.
           by apply set_booking_data_same.
    + left. unfold context_branches. rewrite Hb. simpl. by rewrite andb_false_r.
  - left. unfold context_branches. by rewrite bool_decide_eq_false_2.
Qed.

(** With an empty booking dict the guard of the slot-filling block
    fails: nothing is filled and the general fallback is returned. *)
Lemma mock_empty_booking_falls_back (lower : string -> string) (u : string)
    (s : CallSession) :
  keyword_matched (lower u) = false ->
  booking_data s = Some ∅ ->
  _mock_ai_response lower u s =
    (s, inr (mkResponse (call_id s)
               "I didn't quite understand. You can say 'book a flight', 'check flight status', or 'cancel booking'."
               "unknown" None 0.85%Q ∅)).
Proof.
  intros Hkw Hb. unfold _mock_ai_response.
  rewrite (mock_branches_no_route _ _ _ Hkw). unfold context_branches.
  rewrite Hb. simpl. by rewrite andb_false_r.
Qed.

(** With the five slots present nothing is filled and the fallback of
    the slot-filling block is returned. *)
Lemma mock_complete_booking_falls_back (lower : string -> string) (u : string)
    (s : CallSession) (b : gmap string PyVal) :
  keyword_matched (lower u) = false ->
  current_intent s = Some "book_flight" ->
  booking_data s = Some b ->
  first_missing b = None ->
  _mock_ai_response lower u s =
    (s, inr (mkResponse (call_id s) "I didn't quite understand. Could you rephrase that?"
               "unknown" None 0.85%Q ∅)).
Proof.
  intros Hkw Hi Hb Hf. unfold _mock_ai_response.
  rewrite (mock_branches_no_route _ _ _ Hkw).
  assert (Hne : b <> ∅).
  { intros ->. discriminate Hf. }
  rewrite (context_branches_booking _ _ _ Hi Hb Hne).
  rewrite (slot_filling_complete _ _ Hf). simpl.
  by rewrite (set_booking_data_same _ _ Hb).
Qed.

(** C1 (defect of the code). On a turn of the slot-filling path that
    fills a slot -- intent [book_flight], a booking dict that is not
    empty and lacks a slot, no keyword in the utterance -- the policy
    does not return a result: its [return] statement reads the local
    [intent], which no slot-filling branch has bound, and raises
    [UnboundLocalError]. *)
Theorem mock_slot_turn_raises_unbound_intent (lower : string -> string) (u : string)
    (s : CallSession) (b : gmap string PyVal) (f : string) :
  keyword_matched (lower u) = false ->
  current_intent s = Some "book_flight" ->
  booking_data s = Some b ->
  b <> ∅ ->
  first_missing b = Some f ->
  snd (_mock_ai_response lower u s) = inl (UnboundLocalError "intent") /\
  ~ (exists r, snd (_mock_ai_response lower u s) = inr r).
Proof.
  intros Hkw Hi Hb Hne Hf.
  destruct (mock_slot_turn lower u s b f Hkw Hi Hb Hne Hf) as [_ ->]. simpl.
  split; [reflexivity | intros [r Hr]; discriminate].
Qed.

(** The scenario of the specification: origin "Mumbai" stored, the
    caller says "Delhi". *)
Lemma mock_slot_turn_raises_unbound_intent_witness :
  let s := session_of (Some "book_flight") (Some booking_mumbai) in
  on_slot_filling_path lower_ascii "Delhi" s /\
  snd (_mock_ai_response lower_ascii "Delhi" s) = inl (UnboundLocalError "intent") /\
  ~ (exists r, snd (_mock_ai_response lower_ascii "Delhi" s) = inr r).
Proof.
  cbv zeta. split.
  - repeat split; try (vm_compute; reflexivity); by eexists.
  - apply (mock_slot_turn_raises_unbound_intent lower_ascii "Delhi"
             (session_of (Some "book_flight") (Some booking_mumbai))
             booking_mumbai "destination");
      [vm_compute; reflexivity | reflexivity | reflexivity
      | vm_compute; discriminate | vm_compute; reflexivity].
Defined.

(** C5 (as amended). On the slot-filling path with a booking dict that
    is not empty and lacks a slot, one slot is filled per turn: the
    first one absent in the order origin, destination, date,
    passenger_name, contact is set to the utterance, and every other
    entry of the dict stays as it was. The prompt the branch selects is
    the question for the slot that follows the filled one in that order
    (present or not), and the confirmation summary when the filled slot
    is contact; the action tag goes with it. *)
Theorem slot_filling_fills_first_missing (lower : string -> string) (u : string)
    (s : CallSession) (b : gmap string PyVal) (f : string) :
  keyword_matched (lower u) = false ->
  current_intent s = Some "book_flight" ->
  booking_data s = Some b ->
  b <> ∅ ->
  first_missing b = Some f ->
  let b' := <[f := PStr u]> b in
  b !! f = None /\
  b' !! f = Some (PStr u) /\
  (forall k, k <> f -> b' !! k = b !! k) /\
  fst (_mock_ai_response lower u s) = set_booking_data (Some b') s /\
  snd (mock_branches lower u s) =
    inr (assign_message_action (prompt_after f b') (Some (action_after f))).
Proof.
  intros Hkw Hi Hb Hne Hf b'.
  destruct (mock_slot_turn lower u s b f Hkw Hi Hb Hne Hf) as [Hbr Hresp].
  split; [by apply first_missing_absent |].
  split; [apply lookup_insert_eq |].
  split; [intros k Hk; by apply lookup_insert_ne |].
  split; [by rewrite Hresp | by rewrite Hbr].
Qed.

(** Filling the last slot: the selected prompt is the confirmation
    summary. *)
Lemma slot_filling_fills_first_missing_witness :
  let b := delete "contact" booking_full in
  let s := session_of (Some "book_flight") (Some b) in
  let u := "+919876543210" in
  first_missing b = Some "contact" /\
  booking_data (fst (_mock_ai_response lower_ascii u s)) = Some booking_full /\
  snd (mock_branches lower_ascii u s) =
    inr (assign_message_action
           "Perfect! Let me confirm: Flying from Mumbai to Delhi on 2025-11-15 for John Doe. Should I proceed with the booking?"
           (Some "confirm_booking")).
Proof.
  cbv zeta.
  destruct (slot_filling_fills_first_missing lower_ascii "+919876543210"
              (session_of (Some "book_flight") (Some (delete "contact" booking_full)))
              (delete "contact" booking_full) "contact")
    as (_ & _ & _ & Hs & Hl);
    [vm_compute; reflexivity | reflexivity | reflexivity
    | vm_compute; discriminate | vm_compute; reflexivity |].
  split; [vm_compute; reflexivity |].
  split; [rewrite Hs; vm_compute; reflexivity | rewrite Hl; vm_compute; reflexivity].
Defined.

(** C5 as stated fails: with a booking that holds the destination but
    not the origin, the utterance fills the origin, the next missing
    slot is then the date, yet the prompt selected asks for the
    destination, which is present; and no result whose prompt asks for
    the date is returned. *)
Lemma slot_filling_asks_for_present_slot :
  let s := session_of (Some "book_flight") (Some booking_to_delhi) in
  let out := _mock_ai_response lower_ascii "Mumbai" s in
  on_slot_filling_path lower_ascii "Mumbai" s /\
  first_missing booking_to_delhi = Some "origin" /\
  booking_data (fst out) = Some (<["origin" := PStr "Mumbai"]> booking_to_delhi) /\
  first_missing (<["origin" := PStr "Mumbai"]> booking_to_delhi) = Some "date" /\
  is_Some (booking_to_delhi !! "destination") /\
  snd (mock_branches lower_ascii "Mumbai" s) =
    inr (assign_message_action (question_for "destination") (Some "collect_destination")) /\
  ~ (exists r, snd out = inr r /\ r_message r = question_for "date").
Proof.
  cbv zeta.
  split; [repeat split; try (vm_compute; reflexivity); by eexists |].
  split; [vm_compute; reflexivity |].
  split; [vm_compute; reflexivity |].
  split; [vm_compute; reflexivity |].
  split; [by eexists |].
  split; [vm_compute; reflexivity |].
  intros [r [Hr _]]. vm_compute in Hr. discriminate.
Qed.

(** C6 (as amended). A call of the policy leaves the session's context,
    current intent and interactions, and every field other than the
    booking data, as they were. The booking data is unchanged too,
    except on a turn of slot filling, where it gains the first missing
    slot, bound to the utterance. *)
Theorem mock_session_frame (lower : string -> string) (u : string) (s : CallSession) :
  let s' := fst (_mock_ai_response lower u s) in
  context s' = context s /\
  current_intent s' = current_intent s /\
  interactions s' = interactions s /\
  s' = set_booking_data (booking_data s') s /\
  (s' = s \/
   exists b f,
     keyword_matched (lower u) = false /\ current_intent s = Some "book_flight" /\
     booking_data s = Some b /\ b <> ∅ /\ first_missing b = Some f /\
     booking_data s' = Some (<[f := PStr u]> b)).
Proof.
  cbv zeta. rewrite mock_response_session.
  assert (H : fst (mock_branches lower u s) = s \/
              exists b f,
                keyword_matched (lower u) = false /\ current_intent s = Some "book_flight" /\
                booking_data s = Some b /\ b <> ∅ /\ first_missing b = Some f /\
                fst (mock_branches lower u s) = set_booking_data (Some (<[f := PStr u]> b)) s).
  { destruct (keyword_matched (lower u)) eqn:Hkw.
    - left. destruct (existsb_find _ _ Hkw) as [rt Hrt].
      by rewrite (mock_branches_route _ _ _ _ Hrt).
    - rewrite (mock_branches_no_route _ _ _ Hkw).
      destruct (context_branches_session u s) as [-> | (b & f & Hi & Hb & Hne & Hf & ->)];
        [by left | right; by exists b, f]. }
  destruct H as [-> | (b & f & Hkw & Hi & Hb & Hne & Hf & ->)].
  - repeat split; [by destruct s | by left].
  - repeat split. right. by exists b, f.
Qed.

(** C6 as stated fails: the scenario of the specification changes the
    booking data of the session passed in. *)
Lemma mock_changes_booking_data :
  let s := session_of (Some "book_flight") (Some booking_mumbai) in
  let s' := fst (_mock_ai_response lower_ascii "Delhi" s) in
  booking_data s = Some booking_mumbai /\
  booking_data s' = Some (<["destination" := PStr "Delhi"]> booking_mumbai) /\
  booking_data s' <> booking_data s.
Proof.
  cbv zeta. split; [reflexivity |]. split; vm_compute; [reflexivity | discriminate].
Qed.

(** *** The session manager *)

Lemma end_session_present (now : datetime) (cid : string) (st : CallStatus)
    (m : SessionManager) (ref : nat) :
  sessions m !! cid = Some ref ->
  end_session now cid st m =
    (true, mkSessionManager (alter (fun s => set_status st (set_end_time (Some now) s)) ref (heap m))
             (delete cid (sessions m)) (session_timeout m)).
Proof. intros H. unfold end_session. by rewrite H. Qed.

Lemma end_session_absent (now : datetime) (cid : string) (st : CallStatus)
    (m : SessionManager) :
  sessions m !! cid = None -> end_session now cid st m = (false, m).
Proof. intros H. unfold end_session. by rewrite H. Qed.

(** After [end_session] the call id is not in the active set. *)
Lemma end_session_removes (now : datetime) (cid : string) (st : CallStatus)
    (m : SessionManager) :
  sessions (snd (end_session now cid st m)) !! cid = None.
Proof.
  unfold end_session. destruct (sessions m !! cid) eqn:H; simpl; [| done].
  apply lookup_delete_eq.
Qed.

(** A session that has not expired is handed out and nothing changes. *)
Lemma get_session_fresh (now now_end : datetime) (cid : string) (m : SessionManager)
    (ref : nat) (session : CallSession) :
  sessions m !! cid = Some ref ->
  heap m !! ref = Some session ->
  _is_session_expired now (session_timeout m) session = false ->
  get_session now now_end cid m = (Some ref, m).
Proof. intros Hs Hh He. unfold get_session. by rewrite Hs, Hh, He. Qed.

(** What [get_session] does with an expired session. *)
Lemma get_session_expired (now now_end : datetime) (cid : string) (m : SessionManager)
    (ref : nat) (session : CallSession) :
  sessions m !! cid = Some ref ->
  heap m !! ref = Some session ->
  _is_session_expired now (session_timeout m) session = true ->
  get_session now now_end cid m =
    (None, mkSessionManager
             (alter (fun s => set_status COMPLETED (set_end_time (Some now_end) s)) ref (heap m))
             (delete cid (sessions m)) (session_timeout m)).
Proof.
  intros Hs Hh He. unfold get_session. rewrite Hs, Hh, He.
  by rewrite (end_session_present _ _ _ _ _ Hs).
Qed.

(** Creating a session for a call id that is in the dictionary returns
    the stored reference and changes nothing. *)
Lemma create_session_existing (now : datetime) (cid caller : string) (m : SessionManager)
    (ref : nat) :
  sessions m !! cid = Some ref -> create_session now cid caller m = (ref, m).
Proof. intros H. unfold create_session. by rewrite H. Qed.

(** Creating twice in a row, with any caller numbers and at any times,
    gives the session of the first creation and the state after it. *)
Lemma create_session_twice (now1 now2 : datetime) (cid caller1 caller2 : string)
    (m : SessionManager) :
  create_session now2 cid caller2 (snd (create_session now1 cid caller1 m)) =
  create_session now1 cid caller1 m.
Proof.
  unfold create_session at 2 3.
  destruct (sessions m !! cid) as [ref |] eqn:H; simpl.
  - by apply create_session_existing.
  - apply create_session_existing. simpl. apply lookup_insert_eq.
Qed.

(** The references of the dictionary stay live. *)
Lemma create_session_refs_live (now : datetime) (cid caller : string) (m : SessionManager) :
  refs_live m -> refs_live (snd (create_session now cid caller m)).
Proof.
  intros Hlive. unfold create_session.
  destruct (sessions m !! cid) as [ref |] eqn:H; simpl; [done |].
  intros c r. simpl. rewrite lookup_insert. case_decide as Hc.
  - intros [= <-]. rewrite lookup_app_r, Nat.sub_diag by done. by eexists.
  - intros Hr. destruct (Hlive c r Hr) as [x Hx]. exists x. by apply lookup_app_l_Some.
Qed.

Lemma end_session_refs_live (now : datetime) (cid : string) (st : CallStatus)
    (m : SessionManager) :
  refs_live m -> refs_live (snd (end_session now cid st m)).
Proof.
  intros Hlive. unfold end_session.
  destruct (sessions m !! cid) as [ref |] eqn:H; simpl; [| done].
  intros c r. simpl. intros Hr.
  assert (Hr' : sessions m !! c = Some r).
  { rewrite lookup_delete in Hr. by case_decide. }
  destruct (Hlive c r Hr') as [x Hx].
  destruct (decide (ref = r)) as [-> | Hne];
    [rewrite list_lookup_alter_eq | rewrite list_lookup_alter_ne by done];
    rewrite Hx; by eexists.
Qed.

Lemma get_session_refs_live (now now_end : datetime) (cid : string) (m : SessionManager) :
  refs_live m -> refs_live (snd (get_session now now_end cid m)).
Proof.
  intros Hlive. unfold get_session.
  destruct (sessions m !! cid) as [ref |]; [| done].
  destruct (heap m !! ref) as [session |]; [| done].
  destruct (_is_session_expired now (session_timeout m) session); [| done].
  by apply end_session_refs_live.
Qed.

(** The sessions of the examples are states the manager's own
    operations produce: a session is created, its intent is set, and a
    destination is stored before any origin. *)
Example booking_to_delhi_reachable :
  let m1 := one_idle_session in
  let m2 := snd (set_intent 1 2 "CA1" "book_flight" m1) in
  let m3 := snd (store_booking_data 3 4 "CA1" booking_to_delhi m2) in
  heap m3 !! 0%nat = Some (session_of (Some "book_flight") (Some booking_to_delhi)).
Proof. vm_compute. reflexivity. Qed.

(** Storing an empty dict leaves the session with an empty booking, for
    which the policy does not enter slot filling. *)
Example mock_after_empty_store :
  let m1 := one_idle_session in
  let m2 := snd (set_intent 1 2 "CA1" "book_flight" m1) in
  let m3 := snd (store_booking_data 3 4 "CA1" ∅ m2) in
  heap m3 !! 0%nat = Some (session_of (Some "book_flight") (Some ∅)) /\
  _mock_ai_response lower_ascii "Mumbai" (session_of (Some "book_flight") (Some ∅)) =
    (session_of (Some "book_flight") (Some ∅),
     inr (mkResponse "CA1"
            "I didn't quite understand. You can say 'book a flight', 'check flight status', or 'cancel booking'."
            "unknown" None 0.85%Q ∅)).
Proof. cbv zeta. split; vm_compute; reflexivity. Qed.

(** C2 (defect of the code). For a stored session that has expired,
    [get_session] returns [None] and removes the session from the
    active set, but it ends it through [end_session]'s default status:
    the session object is left with status [COMPLETED], not [FAILED]. *)
Theorem get_session_expired_ends_completed (now now_end : datetime) (cid : string)
    (m : SessionManager) (ref : nat) (session : CallSession) :
  sessions m !! cid = Some ref ->
  heap m !! ref = Some session ->
  _is_session_expired now (session_timeout m) session = true ->
  let m' := snd (get_session now now_end cid m) in
  fst (get_session now now_end cid m) = None /\
  sessions m' !! cid = None /\
  heap m' !! ref = Some (set_status COMPLETED (set_end_time (Some now_end) session)) /\
  status <$> heap m' !! ref <> Some FAILED.
Proof.
  intros Hs Hh He. cbv zeta.
  rewrite (get_session_expired _ _ _ _ _ _ Hs Hh He). simpl.
  rewrite lookup_delete_eq, list_lookup_alter_eq, Hh. simpl.
  repeat split. discriminate.
Qed.

(** A session created at time 0 and looked up after 31 minutes, with
    the default timeout of 30. *)
Lemma get_session_expired_ends_completed_witness :
  let m' := snd (get_session (minutes 31) (minutes 31 + 1) "CA1" one_idle_session) in
  _is_session_expired (minutes 31) (session_timeout one_idle_session)
    (mkCallSession "CA1" "+919876543210" 0 None ACTIVE [] ∅ None None None) = true /\
  fst (get_session (minutes 31) (minutes 31 + 1) "CA1" one_idle_session) = None /\
  sessions m' !! "CA1" = None /\
  status <$> heap m' !! 0%nat = Some COMPLETED.
Proof.
  cbv zeta. split; [vm_compute; reflexivity |].
  destruct (get_session_expired_ends_completed (minutes 31) (minutes 31 + 1) "CA1"
              one_idle_session 0%nat
              (mkCallSession "CA1" "+919876543210" 0 None ACTIVE [] ∅ None None None))
    as (Hnone & Hgone & Hobj & _);
    [vm_compute; reflexivity | reflexivity | vm_compute; reflexivity |].
  split; [exact Hnone |]. split; [exact Hgone |]. by rewrite Hobj.
Defined.

(** The periodic sweep, on the same state, ends the session as
    [FAILED]. *)
Example cleanup_expired_marks_failed :
  let out := cleanup_expired_sessions (fun _ => minutes 31) (fun _ => minutes 31 + 1)
               one_idle_session in
  fst out = 1%nat /\
  sessions (snd out) !! "CA1" = None /\
  status <$> heap (snd out) !! 0%nat = Some FAILED.
Proof. cbv zeta. repeat split; vm_compute; reflexivity. Qed.

(** C8. For a call id that has a session in the active set, creating a
    session again, with any caller number and at any time, returns the
    stored session and leaves the manager and the session object as they
    were; in particular the start time is the original one. *)
Theorem create_session_idempotent (now : datetime) (cid caller : string)
    (m : SessionManager) (ref : nat) (session : CallSession) :
  sessions m !! cid = Some ref ->
  heap m !! ref = Some session ->
  let out := create_session now cid caller m in
  fst out = ref /\
  snd out = m /\
  heap (snd out) !! fst out = Some session /\
  start_time <$> heap (snd out) !! fst out = Some (start_time session).
Proof.
  intros Hs Hh. cbv zeta. rewrite (create_session_existing _ _ _ _ _ Hs). simpl.
  rewrite Hh. done.
Qed.

Lemma create_session_idempotent_witness :
  let out := create_session (minutes 5) "CA1" "+15550100" one_idle_session in
  fst out = 0%nat /\
  snd out = one_idle_session /\
  start_time <$> heap (snd out) !! fst out = Some 0.
Proof.
  cbv zeta.
  destruct (create_session_idempotent (minutes 5) "CA1" "+15550100" one_idle_session 0%nat
              (mkCallSession "CA1" "+919876543210" 0 None ACTIVE [] ∅ None None None))
    as (Hr & Hm & _ & Ht); [vm_compute; reflexivity | reflexivity |].
  split; [exact Hr |]. split; [exact Hm | exact Ht].
Defined.

(** C10. [create_session] does not look at idle expiry: for a call id
    in the dictionary whose stored session has expired, it returns that
    session and leaves everything as it was -- the session stays in the
    active set and its object is not ended. *)
Theorem create_session_returns_expired_session (now : datetime) (cid caller : string)
    (m : SessionManager) (ref : nat) (session : CallSession) :
  sessions m !! cid = Some ref ->
  heap m !! ref = Some session ->
  _is_session_expired now (session_timeout m) session = true ->
  let out := create_session now cid caller m in
  out = (ref, m) /\
  sessions (snd out) !! cid = Some ref /\
  heap (snd out) !! ref = Some session.
Proof.
  intros Hs Hh _. cbv zeta. rewrite (create_session_existing _ _ _ _ _ Hs). simpl.
  done.
Qed.

(** After 31 idle minutes [create_session] still hands out the session
    that [get_session], at the same instant, reports as gone. *)
Lemma create_session_returns_expired_session_witness :
  let session := mkCallSession "CA1" "+919876543210" 0 None ACTIVE [] ∅ None None None in
  _is_session_expired (minutes 31) (session_timeout one_idle_session) session = true /\
  create_session (minutes 31) "CA1" "+15550100" one_idle_session = (0%nat, one_idle_session) /\
  heap one_idle_session !! 0%nat = Some session /\
  fst (get_session (minutes 31) (minutes 31 + 1) "CA1" one_idle_session) = None.
Proof.
  cbv zeta. split; [vm_compute; reflexivity |].
  destruct (create_session_returns_expired_session (minutes 31) "CA1" "+15550100"
              one_idle_session 0%nat
              (mkCallSession "CA1" "+919876543210" 0 None ACTIVE [] ∅ None None None))
    as (Hout & _ & Hobj); [vm_compute; reflexivity | reflexivity | vm_compute; reflexivity |].
  split; [exact Hout |]. split; [exact Hobj | vm_compute; reflexivity].
Defined.

(** *** The transaction processors *)

Section Booking.

Variable coerce_str : PyVal -> option string.
Variable coerce_int : PyVal -> option Z.

Lemma required_str_missing (data : gmap string PyVal) (name : string)
    (min_length max_length : option nat) :
  data !! name = None ->
  required_str coerce_str data name min_length max_length = inl (name, Missing).
Proof. intros H. unfold required_str. by rewrite H. Qed.

(** A field declared without a default and absent from the request is
    among the errors. *)
Lemma validation_errors_missing (data : gmap string PyVal) (f : string) :
  f ∈ required_fields ->
  data !! f = None ->
  (f, Missing) ∈ validation_errors coerce_str coerce_int data.
Proof.
  unfold required_fields, validation_errors. intros Hf Hnone.
  repeat (apply elem_of_cons in Hf as [-> | Hf];
          [rewrite (required_str_missing _ _ _ _ Hnone); simpl;
           rewrite ?elem_of_app, ?elem_of_cons; tauto |]).
  by apply elem_of_nil in Hf.
Qed.

(** The constructor raises as soon as there is an error, and builds
    the booking otherwise. *)
Lemma FlightBooking_init_raises (data : gmap string PyVal) :
  validation_errors coerce_str coerce_int data <> [] ->
  FlightBooking_init coerce_str coerce_int data =
    inl (ValidationError (validation_errors coerce_str coerce_int data)).
Proof.
  unfold FlightBooking_init. intros Hne.
  destruct (required_str coerce_str data "origin" _ _) eqn:H1; [reflexivity |].
  destruct (required_str coerce_str data "destination" _ _) eqn:H2; [reflexivity |].
  destruct (required_str coerce_str data "travel_date" _ _) eqn:H3; [reflexivity |].
  destruct (required_str coerce_str data "passenger_name" _ _) eqn:H4; [reflexivity |].
  destruct (required_str coerce_str data "passenger_contact" _ _) eqn:H5; [reflexivity |].
  destruct (required_str coerce_str data "booking_type" _ _) eqn:H6; [reflexivity |].
  destruct (bounded_int coerce_int data "num_passengers" _ _ _) eqn:H7; [reflexivity |].
  exfalso. apply Hne. unfold validation_errors.
  by rewrite H1, H2, H3, H4, H5, H6, H7.
Qed.

(** C3 (as amended). A booking request that lacks a required field
    makes the booking processor raise pydantic's validation error,
    which names the field as required; the processor returns no
    result, with success false or otherwise. *)
Theorem process_flight_booking_missing_field (stamp call_id : string)
    (data : gmap string PyVal) (f : string) :
  f ∈ required_fields ->
  data !! f = None ->
  (exists errors,
     process_flight_booking coerce_str coerce_int stamp call_id data =
       inl (ValidationError errors) /\
     (f, Missing) ∈ errors) /\
  ~ (exists r, process_flight_booking coerce_str coerce_int stamp call_id data = inr r).
Proof.
  intros Hf Hnone.
  pose proof (validation_errors_missing data f Hf Hnone) as Hin.
  assert (Hraise : process_flight_booking coerce_str coerce_int stamp call_id data =
                   inl (ValidationError (validation_errors coerce_str coerce_int data))).
  { unfold process_flight_booking. rewrite FlightBooking_init_raises; [done |].
    intros Hnil. rewrite Hnil in Hin. by apply elem_of_nil in Hin. }
  split.
  - eexists. split; [exact Hraise | exact Hin].
  - intros [r Hr]. rewrite Hraise in Hr. discriminate.
Qed.

End Booking.

Lemma process_flight_booking_missing_field_witness :
  "passenger_name" ∈ required_fields /\
  (∅ : gmap string PyVal) !! "passenger_name" = None /\
  ~ (exists r, process_flight_booking strict_str strict_int "20251115143000" "CA1" ∅ = inr r).
Proof.
  assert (Hin : "passenger_name" ∈ required_fields).
  { unfold required_fields. rewrite !elem_of_cons. tauto. }
  split; [exact Hin |]. split; [reflexivity |].
  apply (process_flight_booking_missing_field strict_str strict_int "20251115143000" "CA1"
           ∅ "passenger_name" Hin).
  reflexivity.
Defined.

(** C3 as stated fails: a request that is complete but for its origin
    gets no result with success false; the processor raises. *)
Lemma process_flight_booking_no_origin_raises :
  request_no_origin !! "origin" = None /\
  process_flight_booking strict_str strict_int "20251115143000" "CA1" request_no_origin =
    inl (ValidationError [("origin", Missing)]) /\
  ~ (exists r,
       process_flight_booking strict_str strict_int "20251115143000" "CA1" request_no_origin =
         inr r /\ b_success r = false).
Proof.
  split; [vm_compute; reflexivity |].
  assert (H : process_flight_booking strict_str strict_int "20251115143000" "CA1"
                request_no_origin = inl (ValidationError [("origin", Missing)])).
  { vm_compute. reflexivity. }
  split; [exact H |].
  intros [r [Hr _]]. rewrite H in Hr. discriminate.
Qed.

(** With the origin supplied the same request is booked. *)
Example process_flight_booking_complete :
  process_flight_booking strict_str strict_int "20251115143000" "CA1" request_full =
    inr (mkBookingResult true "BK20251115143000" "Booking confirmed from Mumbai to Delhi"
           (mkFlightBooking "Mumbai" "Delhi" "2025-11-15" "John Doe" "+919876543210"
              "domestic" 1)).
Proof. vm_compute. reflexivity. Qed.

(** C9 (as amended). The cancellation processor checks nothing: for
    every request it reports success with the message "Booking cancelled
    successfully" and echoes the booking id of the request, which is
    [None] when the request has none. *)
Theorem process_cancellation_always_succeeds (call_id : string) (data : gmap string PyVal) :
  let r := process_cancellation call_id data in
  c_success r = true /\
  c_message r = "Booking cancelled successfully" /\
  c_booking_id r = default PNone (data !! "booking_id").
Proof. cbv zeta. repeat split. Qed.

(** C9 as stated fails: a request without a booking id is reported as a
    success, so the presence of the id is not validated. *)
Lemma process_cancellation_without_booking_id :
  (∅ : gmap string PyVal) !! "booking_id" = None /\
  process_cancellation "CA1" ∅ =
    mkCancellationResult true PNone "Booking cancelled successfully" /\
  ~ validates_booking_id ∅ (process_cancellation "CA1" ∅).
Proof.
  split; [reflexivity |]. split; [reflexivity |].
  unfold validates_booking_id. intros H.
  destruct (H eq_refl) as [v Hv]. discriminate.
Qed.

(* ===================================================================== *)
(** ** Further properties of the session manager                          *)
(* ===================================================================== *)

(** A change of a session object that keeps its call id, status and end
    time keeps the active set in order. *)
Lemma alter_active_set_ok (f : CallSession -> CallSession) (ref : nat) (m : SessionManager) :
  (forall s, call_id (f s) = call_id s /\ status (f s) = status s /\
             end_time (f s) = end_time s) ->
  active_set_ok m ->
  active_set_ok (mkSessionManager (alter f ref (heap m)) (sessions m) (session_timeout m)).
Proof.
  intros Hf [Hact Hobj]. split; simpl.
  - intros c r Hc. destruct (Hact c r Hc) as (s & Hs & Hid & Hst & Hend).
    destruct (decide (ref = r)) as [-> | Hne].
    + exists (f s). rewrite list_lookup_alter_eq, Hs. simpl.
      destruct (Hf s) as (E1 & E2 & E3). by rewrite E1, E2, E3.
    + exists s. by rewrite list_lookup_alter_ne.
  - intros r s' Hs' Hend. destruct (decide (ref = r)) as [-> | Hne].
    + rewrite list_lookup_alter_eq in Hs'.
      destruct (heap m !! r) as [s |] eqn:Hs; [| discriminate].
      injection Hs' as <-. destruct (Hf s) as (Hid & _ & He).
      rewrite Hid. apply Hobj; [done | by rewrite <- He].
    + rewrite list_lookup_alter_ne in Hs' by done. by apply Hobj.
Qed.

Lemma init_active_set_ok (timeout_minutes : Z) : active_set_ok (init timeout_minutes).
Proof. split; simpl; intros ? ? H; [by rewrite lookup_empty in H | done]. Qed.

Lemma create_session_active_set_ok (now : datetime) (c n : string) (m : SessionManager) :
  active_set_ok m -> active_set_ok (snd (create_session now c n m)).
Proof.
  intros [Hact Hobj]. unfold create_session.
  destruct (sessions m !! c) as [ref |] eqn:Hc; simpl; [done |].
  split; simpl.
  - intros c' r. rewrite lookup_insert. case_decide as Hcc.
    + intros [= <-]. subst c'. eexists. rewrite lookup_app_r, Nat.sub_diag by done.
      simpl. done.
    + intros Hr. destruct (Hact c' r Hr) as (s & Hs & Hrest).
      exists s. split; [by apply lookup_app_l_Some | done].
  - intros r s Hs Hend. apply lookup_app_Some in Hs as [Hs | [Hlen Hs]].
    + pose proof (Hobj r s Hs Hend) as Hr.
      rewrite lookup_insert_ne; [done |]. intros Heq. congruence.
    + destruct (r - length (heap m))%nat as [| k] eqn:Hk; simpl in Hs; [| done].
      injection Hs as <-. simpl. rewrite lookup_insert_eq. f_equal. lia.
Qed.

Lemma end_session_active_set_ok (now : datetime) (c : string) (st : CallStatus)
    (m : SessionManager) :
  active_set_ok m -> active_set_ok (snd (end_session now c st m)).
Proof.
  intros [Hact Hobj]. unfold end_session.
  destruct (sessions m !! c) as [ref |] eqn:Hc; simpl; [| done].
  destruct (Hact c ref Hc) as (s0 & Hs0 & Hid0 & _).
  split; simpl.
  - intros c' r Hr. rewrite lookup_delete in Hr. case_decide as Hcc; [done |].
    destruct (Hact c' r Hr) as (s & Hs & Hid & Hrest).
    exists s. split; [| done].
    rewrite list_lookup_alter_ne; [done |]. intros <-. congruence.
  - intros r s Hs Hend. destruct (decide (ref = r)) as [-> | Hne].
    + rewrite list_lookup_alter_eq, Hs0 in Hs. simpl in Hs. injection Hs as <-. done.
    + rewrite list_lookup_alter_ne in Hs by done.
      pose proof (Hobj r s Hs Hend) as Hr.
      rewrite lookup_delete_ne; [done |]. intros Heq. congruence.
Qed.

Lemma get_session_active_set_ok (now now_end : datetime) (c : string) (m : SessionManager) :
  active_set_ok m -> active_set_ok (snd (get_session now now_end c m)).
Proof.
  intros Hok. unfold get_session.
  destruct (sessions m !! c) as [ref |]; [| done].
  destruct (heap m !! ref) as [session |]; [| done].
  destruct (_is_session_expired now (session_timeout m) session); [| done].
  by apply end_session_active_set_ok.
Qed.

Lemma cleanup_active_set_ok (now_of now_end_of : string -> datetime) (m : SessionManager) :
  active_set_ok m -> active_set_ok (snd (cleanup_expired_sessions now_of now_end_of m)).
Proof.
  unfold cleanup_expired_sessions. simpl.
  generalize (omap (fun '(call_id, ref) =>
                      match heap m !! ref with
                      | Some session =>
                          if _is_session_expired (now_of call_id) (session_timeout m) session
                          then Some call_id else None
                      | None => None
                      end) (map_to_list (sessions m))).
  intros ids. revert m. induction ids as [| c ids IH]; intros m Hok; simpl; [done |].
  apply IH. by apply end_session_active_set_ok.
Qed.

Lemma apply_op_active_set_ok (op : Op) (m : SessionManager) :
  active_set_ok m -> active_set_ok (apply_op op m).
Proof.
  intros Hok.
  destruct op as [now c n | now now_end c | now now_end c u
                 | now now_end now_stamp c sp msg it | now now_end c last_n
                 | now now_end c i | now now_end c b | now c st | now_of now_end_of
                 | now now_end now_read c]; simpl.
  - by apply create_session_active_set_ok.
  - by apply get_session_active_set_ok.
  - unfold update_session.
    pose proof (get_session_active_set_ok now now_end c m Hok) as Hg.
    destruct (get_session now now_end c m) as [[ref |] m']; simpl in *; [| done].
    by apply alter_active_set_ok.
  - unfold add_interaction.
    pose proof (get_session_active_set_ok now now_end c m Hok) as Hg.
    destruct (get_session now now_end c m) as [[ref |] m']; simpl in *; [| done].
    by apply alter_active_set_ok.
  - unfold get_conversation_history.
    pose proof (get_session_active_set_ok now now_end c m Hok) as Hg.
    destruct (get_session now now_end c m) as [[ref |] m']; simpl in *; [| done].
    destruct (heap m' !! ref); [| done].
    destruct last_n as [n |]; [| done]. by case_bool_decide.
  - unfold set_intent.
    pose proof (get_session_active_set_ok now now_end c m Hok) as Hg.
    destruct (get_session now now_end c m) as [[ref |] m']; simpl in *; [| done].
    by apply alter_active_set_ok.
  - unfold store_booking_data.
    pose proof (get_session_active_set_ok now now_end c m Hok) as Hg.
    destruct (get_session now now_end c m) as [[ref |] m']; simpl in *; [| done].
    by apply alter_active_set_ok.
  - by apply end_session_active_set_ok.
  - by apply cleanup_active_set_ok.
  - unfold get_session_duration.
    pose proof (get_session_active_set_ok now now_end c m Hok) as Hg.
    destruct (get_session now now_end c m) as [[ref |] m']; simpl in *; [| done].
    by destruct (heap m' !! ref).
Qed.

(** X1. Whatever calls are made on a new manager, in whatever order and
    at whatever times, every entry of the active set refers to a session
    object with that call id, status [ACTIVE] and no end time, and every
    session object that has no end time is in the active set under its
    call id: a session that was ended is never retrievable, and one that
    was not ended always is. *)
Theorem run_active_set_ok (timeout_minutes : Z) (ops : list Op) :
  active_set_ok (run ops (init timeout_minutes)).
Proof.
  unfold run. generalize (init_active_set_ok timeout_minutes).
  generalize (init timeout_minutes). induction ops as [| op ops IH]; intros m Hok; simpl.
  - exact Hok.
  - apply IH. by apply apply_op_active_set_ok.
Qed.

(** Two entries of the active set refer to two objects. *)
Lemma active_refs_distinct (m : SessionManager) (c c' : string) (r r' : nat) :
  active_set_ok m -> sessions m !! c = Some r -> sessions m !! c' = Some r' ->
  c <> c' -> r <> r'.
Proof.
  intros [Hact _] Hc Hc' Hne ->.
  destruct (Hact c r' Hc) as (s & Hs & Hid & _).
  destruct (Hact c' r' Hc') as (s' & Hs' & Hid' & _). congruence.
Qed.

(** What [get_session] can return. *)
Lemma get_session_Some (now now_end : datetime) (c : string) (m m' : SessionManager)
    (ref : nat) :
  get_session now now_end c m = (Some ref, m') ->
  m' = m /\ sessions m !! c = Some ref /\
  exists s, heap m !! ref = Some s /\ _is_session_expired now (session_timeout m) s = false.
Proof.
  unfold get_session.
  destruct (sessions m !! c) as [r |]; [| discriminate].
  destruct (heap m !! r) as [s |] eqn:Hs; [| discriminate].
  destruct (_is_session_expired now (session_timeout m) s) eqn:He; [discriminate |].
  intros [= <- <-]. repeat split. by exists s.
Qed.

Lemma get_session_None (now now_end : datetime) (c : string) (m m' : SessionManager) :
  get_session now now_end c m = (None, m') ->
  m' = m \/ m' = snd (end_session now_end c end_session_default_status m).
Proof.
  unfold get_session.
  destruct (sessions m !! c) as [r |]; [| intros [= <-]; by left].
  destruct (heap m !! r) as [s |]; [| intros [= <-]; by left].
  destruct (_is_session_expired now (session_timeout m) s); [| discriminate].
  intros [= <-]. by right.
Qed.

(** Ending a session leaves the entries and the objects of the other
    call ids as they were. *)
Lemma end_session_other (now : datetime) (c c' : string) (st : CallStatus)
    (m : SessionManager) :
  active_set_ok m -> c' <> c ->
  sessions (snd (end_session now c st m)) !! c' = sessions m !! c' /\
  (forall r, sessions m !! c' = Some r ->
             heap (snd (end_session now c st m)) !! r = heap m !! r).
Proof.
  intros Hok Hne. unfold end_session.
  destruct (sessions m !! c) as [ref |] eqn:Hc; simpl; [| done].
  split; [by apply lookup_delete_ne |].
  intros r Hr. apply list_lookup_alter_ne.
  by apply (active_refs_distinct m c c').
Qed.

Lemma get_session_other (now now_end : datetime) (c c' : string) (m : SessionManager) :
  active_set_ok m -> c' <> c ->
  sessions (snd (get_session now now_end c m)) !! c' = sessions m !! c' /\
  (forall r, sessions m !! c' = Some r ->
             heap (snd (get_session now now_end c m)) !! r = heap m !! r).
Proof.
  intros Hok Hne.
  destruct (get_session now now_end c m) as [[ref |] m'] eqn:Hg; simpl.
  - by apply get_session_Some in Hg as (-> & _).
  - apply get_session_None in Hg as [-> | ->]; [done |]. by apply end_session_other.
Qed.

(** A call that changes the object [get_session] returns: the other
    call ids keep their entries and their objects. *)
Lemma get_then_alter_other (now now_end : datetime) (c c' : string) (m : SessionManager)
    (f : CallSession -> CallSession) (r : nat) :
  active_set_ok m -> c' <> c ->
  sessions m !! c' = Some r ->
  match get_session now now_end c m with
  | (None, m') => sessions m' !! c' = sessions m !! c' /\ heap m' !! r = heap m !! r
  | (Some ref, m') =>
      sessions m' !! c' = sessions m !! c' /\ alter f ref (heap m') !! r = heap m !! r
  end.
Proof.
  intros Hok Hne Hr.
  destruct (get_session_other now now_end c c' m Hok Hne) as [Hs Hh].
  destruct (get_session now now_end c m) as [[ref |] m'] eqn:Hg; simpl in *.
  - split; [done |]. apply get_session_Some in Hg as (-> & Hc & _).
    apply list_lookup_alter_ne. by apply (active_refs_distinct m c c').
  - split; [done | by apply Hh].
Qed.

(** X2. Sessions are isolated from each other: a call about one call id
    changes neither the entry nor the session object of any other call
    id of the active set. *)
Theorem op_leaves_other_sessions (op : Op) (c c' : string) (r : nat) (m : SessionManager) :
  active_set_ok m ->
  op_call_id op = Some c ->
  c' <> c ->
  sessions m !! c' = Some r ->
  sessions (apply_op op m) !! c' = Some r /\
  heap (apply_op op m) !! r = heap m !! r.
Proof.
  intros Hok Hop Hne Hr.
  destruct op as [now c0 n | now now_end c0 | now now_end c0 u
                 | now now_end now_stamp c0 sp msg it | now now_end c0 last_n
                 | now now_end c0 i | now now_end c0 b | now c0 st | now_of now_end_of
                 | now now_end now_read c0]; simpl in Hop; try discriminate;
    injection Hop as ->; simpl.
  - unfold create_session. destruct (sessions m !! c) as [ref |] eqn:Hc; simpl; [done |].
    split; [by rewrite lookup_insert_ne |].
    destruct Hok as [Hact _]. destruct (Hact c' r Hr) as (s & Hs & _).
    rewrite Hs. by apply lookup_app_l_Some.
  - destruct (get_session_other now now_end c c' m Hok Hne) as [Hs Hh].
    rewrite Hs. split; [done | by apply Hh].
  - unfold update_session.
    pose proof (get_then_alter_other now now_end c c' m
                  (fun session => set_context (u ∪ context session) session) r Hok Hne Hr) as H.
    destruct (get_session now now_end c m) as [[ref |] m']; simpl; by rewrite <- Hr.
  - unfold add_interaction.
    pose proof (get_then_alter_other now now_end c c' m
                  (fun session => set_interactions
                     (interactions session ++ [mkInteraction now_stamp sp msg it]) session)
                  r Hok Hne Hr) as H.
    destruct (get_session now now_end c m) as [[ref |] m']; simpl; by rewrite <- Hr.
  - unfold get_conversation_history.
    destruct (get_session_other now now_end c c' m Hok Hne) as [Hs Hh].
    specialize (Hh r Hr). rewrite <- Hr, <- Hs.
    destruct (get_session now now_end c m) as [[ref |] m']; simpl in *; [| done].
    destruct (heap m' !! ref); [| done].
    destruct last_n as [k |]; [| done]. by case_bool_decide.
  - unfold set_intent.
    pose proof (get_then_alter_other now now_end c c' m
                  (set_current_intent (Some i)) r Hok Hne Hr) as H.
    destruct (get_session now now_end c m) as [[ref |] m']; simpl; by rewrite <- Hr.
  - unfold store_booking_data.
    pose proof (get_then_alter_other now now_end c c' m
                  (fun session =>
                     set_booking_data
                       (Some (b ∪ (if opt_dict_truthy (booking_data session)
                                   then default ∅ (booking_data session) else ∅)))
                       session) r Hok Hne Hr) as H.
    destruct (get_session now now_end c m) as [[ref |] m']; simpl; by rewrite <- Hr.
  - destruct (end_session_other now c c' st m Hok Hne) as [Hs Hh].
    rewrite Hs. split; [done | by apply Hh].
  - unfold get_session_duration.
    destruct (get_session_other now now_end c c' m Hok Hne) as [Hs Hh].
    specialize (Hh r Hr). rewrite <- Hr, <- Hs.
    destruct (get_session now now_end c m) as [[ref |] m']; simpl in *; [| done].
    by destruct (heap m' !! ref).
Qed.

Lemma one_idle_session_ok : active_set_ok one_idle_session.
Proof. apply create_session_active_set_ok, init_active_set_ok. Qed.

Lemma two_sessions_ok : active_set_ok two_sessions.
Proof. apply create_session_active_set_ok, one_idle_session_ok. Qed.

(** Ending the first of two sessions leaves the second in place. *)
Lemma op_leaves_other_sessions_witness :
  sessions (apply_op (OpEnd (minutes 2) "CA1" COMPLETED) two_sessions) !! "CA2" = Some 1%nat /\
  heap (apply_op (OpEnd (minutes 2) "CA1" COMPLETED) two_sessions) !! 1%nat =
    heap two_sessions !! 1%nat.
Proof.
  apply (op_leaves_other_sessions (OpEnd (minutes 2) "CA1" COMPLETED) "CA1" "CA2" 1%nat
           two_sessions two_sessions_ok);
    [reflexivity | discriminate | vm_compute; reflexivity].
Defined.

(** X3. Once a session is ended, by whatever status, a lookup of its
    call id finds nothing and changes nothing, and ending it again
    reports failure and changes nothing; this holds for any call id,
    also one that never had a session. *)
Theorem end_session_then_gone (now now' now1 now2 : datetime) (c : string)
    (st st' : CallStatus) (m : SessionManager) :
  let m' := snd (end_session now c st m) in
  get_session now1 now2 c m' = (None, m') /\
  end_session now' c st' m' = (false, m') /\
  (fst (end_session now c st m) = true <-> is_Some (sessions m !! c)).
Proof.
  cbv zeta.
  pose proof (end_session_removes now c st m) as Hgone.
  split; [| split].
  - unfold get_session. by rewrite Hgone.
  - by apply end_session_absent.
  - unfold end_session. destruct (sessions m !! c); simpl.
    + split; [by eexists | done].
    + split; [done | by intros [? ?]].
Qed.

(** X4. A session created for a new call id is found by a lookup, with
    the state unchanged, as long as the lookup comes no later than the
    timeout after the creation -- a lookup at exactly the timeout still
    finds it -- and a later lookup finds nothing and removes it. *)
Theorem create_then_get (t0 now now_end : datetime) (c n : string) (m : SessionManager) :
  sessions m !! c = None ->
  let ref := fst (create_session t0 c n m) in
  let m1 := snd (create_session t0 c n m) in
  heap m1 !! ref = Some (mkCallSession c n t0 None ACTIVE [] ∅ None None None) /\
  (now - t0 <= session_timeout m -> get_session now now_end c m1 = (Some ref, m1)) /\
  (now - t0 > session_timeout m ->
     fst (get_session now now_end c m1) = None /\
     sessions (snd (get_session now now_end c m1)) !! c = None).
Proof.
  intros Hc. cbv zeta. unfold create_session. rewrite Hc. simpl.
  assert (Hobj : (heap m ++ [mkCallSession c n t0 None ACTIVE [] ∅ None None None])%list
                   !! length (heap m)
                 = Some (mkCallSession c n t0 None ACTIVE [] ∅ None None None)).
  { by rewrite lookup_app_r, Nat.sub_diag. }
  split; [exact Hobj |].
  split; intros Ht.
  - eapply get_session_fresh; [apply lookup_insert_eq | exact Hobj |].
    unfold _is_session_expired. simpl. apply bool_decide_eq_false_2. lia.
  - erewrite get_session_expired; [| apply lookup_insert_eq | exact Hobj |].
    + simpl. split; [done | apply lookup_delete_eq].
    + unfold _is_session_expired. simpl. apply bool_decide_eq_true_2. lia.
Qed.

(** A lookup exactly thirty minutes after the creation. *)
Lemma create_then_get_witness :
  let m1 := snd (create_session 0 "CA1" "+919876543210" (init 30)) in
  get_session (minutes 30) (minutes 30 + 1) "CA1" m1 = (Some 0%nat, m1).
Proof.
  cbv zeta.
  destruct (create_then_get 0 (minutes 30) (minutes 30 + 1) "CA1" "+919876543210" (init 30))
    as (_ & Hlive & _); [reflexivity |].
  apply Hlive. vm_compute. discriminate.
Defined.

(** *** The history of a session *)

Lemma session_extends_refl (s : CallSession) : session_extends s s.
Proof. by repeat split. Qed.

Lemma session_extends_trans (s1 s2 s3 : CallSession) :
  session_extends s1 s2 -> session_extends s2 s3 -> session_extends s1 s3.
Proof.
  intros (H1 & H2 & H3 & H4) (H1' & H2' & H3' & H4').
  repeat split; try congruence. by etrans.
Qed.

(** A change of one object that extends it extends every object. *)
Lemma alter_extends (f : CallSession -> CallSession) (ref r : nat) (h : list CallSession)
    (s : CallSession) :
  (forall x, session_extends x (f x)) ->
  h !! r = Some s ->
  exists s', alter f ref h !! r = Some s' /\ session_extends s s'.
Proof.
  intros Hf Hs. destruct (decide (ref = r)) as [-> | Hne].
  - exists (f s). by rewrite list_lookup_alter_eq, Hs.
  - exists s. rewrite list_lookup_alter_ne by done. split; [done | apply session_extends_refl].
Qed.

Lemma end_session_extends (now : datetime) (c : string) (st : CallStatus)
    (m : SessionManager) (r : nat) (s : CallSession) :
  heap m !! r = Some s ->
  exists s', heap (snd (end_session now c st m)) !! r = Some s' /\ session_extends s s'.
Proof.
  intros Hs. unfold end_session. destruct (sessions m !! c) as [ref |]; simpl.
  - by apply alter_extends.
  - exists s. split; [done | apply session_extends_refl].
Qed.

Lemma get_session_extends (now now_end : datetime) (c : string) (m : SessionManager)
    (r : nat) (s : CallSession) :
  heap m !! r = Some s ->
  exists s', heap (snd (get_session now now_end c m)) !! r = Some s' /\ session_extends s s'.
Proof.
  intros Hs. destruct (get_session now now_end c m) as [[ref |] m'] eqn:Hg; simpl.
  - apply get_session_Some in Hg as (-> & _). exists s. split; [done | apply session_extends_refl].
  - apply get_session_None in Hg as [-> | ->].
    + exists s. split; [done | apply session_extends_refl].
    + by apply end_session_extends.
Qed.

Lemma get_then_alter_extends (now now_end : datetime) (c : string) (m : SessionManager)
    (f : CallSession -> CallSession) (r : nat) (s : CallSession) :
  (forall x, session_extends x (f x)) ->
  heap m !! r = Some s ->
  match get_session now now_end c m with
  | (None, m') => exists s', heap m' !! r = Some s' /\ session_extends s s'
  | (Some ref, m') => exists s', alter f ref (heap m') !! r = Some s' /\ session_extends s s'
  end.
Proof.
  intros Hf Hs. destruct (get_session_extends now now_end c m r s Hs) as (s1 & Hs1 & He1).
  destruct (get_session now now_end c m) as [[ref |] m']; simpl in *.
  - destruct (alter_extends f ref r (heap m') s1 Hf Hs1) as (s2 & Hs2 & He2).
    exists s2. split; [done | by apply (session_extends_trans s s1 s2)].
  - by exists s1.
Qed.

Lemma cleanup_extends (now_of now_end_of : string -> datetime) (m : SessionManager)
    (r : nat) (s : CallSession) :
  heap m !! r = Some s ->
  exists s', heap (snd (cleanup_expired_sessions now_of now_end_of m)) !! r = Some s' /\
             session_extends s s'.
Proof.
  unfold cleanup_expired_sessions. simpl.
  generalize (omap (fun '(call_id, ref) =>
                      match heap m !! ref with
                      | Some session =>
                          if _is_session_expired (now_of call_id) (session_timeout m) session
                          then Some call_id else None
                      | None => None
                      end) (map_to_list (sessions m))).
  intros ids. revert m s. induction ids as [| c ids IH]; intros m s Hs; simpl.
  - exists s. split; [done | apply session_extends_refl].
  - destruct (end_session_extends (now_end_of c) c FAILED m r s Hs) as (s1 & Hs1 & He1).
    destruct (IH _ s1 Hs1) as (s2 & Hs2 & He2).
    exists s2. split; [done | by apply (session_extends_trans s s1 s2)].
Qed.

Lemma apply_op_extends (op : Op) (m : SessionManager) (r : nat) (s : CallSession) :
  heap m !! r = Some s ->
  exists s', heap (apply_op op m) !! r = Some s' /\ session_extends s s'.
Proof.
  intros Hs.
  destruct op as [now c n | now now_end c | now now_end c u
                 | now now_end now_stamp c sp msg it | now now_end c last_n
                 | now now_end c i | now now_end c b | now c st | now_of now_end_of
                 | now now_end now_read c]; simpl.
  - unfold create_session. destruct (sessions m !! c); simpl.
    + exists s. split; [done | apply session_extends_refl].
    + exists s. split; [by apply lookup_app_l_Some | apply session_extends_refl].
  - by apply get_session_extends.
  - unfold update_session.
    pose proof (get_then_alter_extends now now_end c m
                  (fun session => set_context (u ∪ context session) session) r s) as H.
    destruct (get_session now now_end c m) as [[ref |] m']; simpl; apply H; try done;
      intros x; apply session_extends_refl.
  - unfold add_interaction.
    pose proof (get_then_alter_extends now now_end c m
                  (fun session => set_interactions
                     (interactions session ++ [mkInteraction now_stamp sp msg it]) session)
                  r s) as H.
    destruct (get_session now now_end c m) as [[ref |] m']; simpl; apply H; try done;
      intros x; repeat split; simpl; by apply prefix_app_r.
  - unfold get_conversation_history.
    destruct (get_session_extends now now_end c m r s Hs) as (s1 & Hs1 & He1).
    destruct (get_session now now_end c m) as [[ref |] m']; simpl in *; [| by exists s1].
    destruct (heap m' !! ref); [| by exists s1].
    destruct last_n as [k |]; [| by exists s1]. case_bool_decide; by exists s1.
  - unfold set_intent.
    pose proof (get_then_alter_extends now now_end c m (set_current_intent (Some i)) r s) as H.
    destruct (get_session now now_end c m) as [[ref |] m']; simpl; apply H; try done;
      intros x; apply session_extends_refl.
  - unfold store_booking_data.
    pose proof (get_then_alter_extends now now_end c m
                  (fun session =>
                     set_booking_data
                       (Some (b ∪ (if opt_dict_truthy (booking_data session)
                                   then default ∅ (booking_data session) else ∅)))
                       session) r s) as H.
    destruct (get_session now now_end c m) as [[ref |] m']; simpl; apply H; try done;
      intros x; apply session_extends_refl.
  - by apply end_session_extends.
  - by apply cleanup_extends.
  - unfold get_session_duration.
    destruct (get_session_extends now now_end c m r s Hs) as (s1 & Hs1 & He1).
    destruct (get_session now now_end c m) as [[ref |] m']; simpl in *; [| by exists s1].
    destruct (heap m' !! ref); by exists s1.
Qed.

(** X5. The history of a session is append-only and its identity is
    fixed: whatever calls are made on the manager, every session object
    that exists is still there afterwards with the same call id, caller
    number and start time, and its interactions begin with the
    interactions it had; no call edits or removes a recorded turn. *)
Theorem run_extends_sessions (ops : list Op) (m : SessionManager) (r : nat) (s : CallSession) :
  heap m !! r = Some s ->
  exists s', heap (run ops m) !! r = Some s' /\ session_extends s s'.
Proof.
  unfold run. revert m s. induction ops as [| op ops IH]; intros m s Hs; simpl.
  - exists s. split; [done | apply session_extends_refl].
  - destruct (apply_op_extends op m r s Hs) as (s1 & Hs1 & He1).
    destruct (IH _ s1 Hs1) as (s2 & Hs2 & He2).
    exists s2. split; [done | by apply (session_extends_trans s s1 s2)].
Qed.

(** A session with one turn, after a second turn, a change of intent and
    the end of the call. *)
Lemma run_extends_sessions_witness :
  let m := snd (add_interaction 1 2 3 "CA1" "user" "book a flight" (Some SPEECH)
                  one_idle_session) in
  let ops := [OpAddInteraction 4 5 6 "CA1" "ai" "Domestic or international?" None;
              OpSetIntent 7 8 "CA1" "book_flight";
              OpEnd 9 "CA1" COMPLETED] in
  exists s s', heap m !! 0%nat = Some s /\ heap (run ops m) !! 0%nat = Some s' /\
               interactions s = [mkInteraction 3 "user" "book a flight" (Some SPEECH)] /\
               session_extends s s'.
Proof.
  cbv zeta.
  eexists. 
  destruct (run_extends_sessions
              [OpAddInteraction 4 5 6 "CA1" "ai" "Domestic or international?" None;
               OpSetIntent 7 8 "CA1" "book_flight";
               OpEnd 9 "CA1" COMPLETED]
              (snd (add_interaction 1 2 3 "CA1" "user" "book a flight" (Some SPEECH)
                      one_idle_session))
              0%nat _ eq_refl) as (s' & Hs' & He).
  exists s'. split; [reflexivity |]. split; [exact Hs' |]. split; [reflexivity | exact He].
Defined.

(** *** The operations that change a session *)

Lemma expired_after_booking_change (now : datetime) (timeout : timedelta)
    (b : option (gmap string PyVal)) (s : CallSession) :
  _is_session_expired now timeout (set_booking_data b s) = _is_session_expired now timeout s.
Proof. reflexivity. Qed.

(** X6. On a session that is live at the time of the call,
    [add_interaction] succeeds, appends the turn at the end of the
    history, stamped with the time of the call, and changes nothing else
    of the session; from then on the idle time of the session is counted
    from that stamp. *)
Theorem add_interaction_appends (now now_end now_stamp : datetime) (c speaker message : string)
    (it : option InputType) (m : SessionManager) (ref : nat) (s : CallSession) :
  sessions m !! c = Some ref ->
  heap m !! ref = Some s ->
  _is_session_expired now (session_timeout m) s = false ->
  let out := add_interaction now now_end now_stamp c speaker message it m in
  let s' := set_interactions (interactions s ++ [mkInteraction now_stamp speaker message it]) s in
  fst out = true /\
  sessions (snd out) = sessions m /\
  heap (snd out) !! ref = Some s' /\
  length (interactions s') = S (length (interactions s)) /\
  (forall later, _is_session_expired later (session_timeout m) s' =
                 bool_decide (later - now_stamp > session_timeout m)).
Proof.
  intros Hc Hs He. cbv zeta. unfold add_interaction.
  rewrite (get_session_fresh _ now_end _ _ _ _ Hc Hs He). simpl.
  rewrite list_lookup_alter_eq, Hs. simpl.
  repeat split.
  - rewrite length_app. simpl. lia.
  - intros later. unfold _is_session_expired. simpl. by rewrite last_snoc.
Qed.

(** Twenty minutes after the creation a turn is recorded; fifty minutes
    after the creation the session has not expired. *)
Lemma add_interaction_appends_witness :
  let out := add_interaction (minutes 20) (minutes 20) (minutes 20) "CA1" "user" "hello"
               (Some SPEECH) one_idle_session in
  fst out = true /\
  (interactions <$> heap (snd out) !! 0%nat) =
    Some [mkInteraction (minutes 20) "user" "hello" (Some SPEECH)] /\
  fst (get_session (minutes 50) (minutes 50) "CA1" (snd out)) = Some 0%nat.
Proof.
  cbv zeta.
  destruct (add_interaction_appends (minutes 20) (minutes 20) (minutes 20) "CA1" "user" "hello"
              (Some SPEECH) one_idle_session 0%nat
              (mkCallSession "CA1" "+919876543210" 0 None ACTIVE [] ∅ None None None))
    as (Hok & _ & Hobj & _); [vm_compute; reflexivity | reflexivity | vm_compute; reflexivity |].
  split; [exact Hok |]. split; [by rewrite Hobj | vm_compute; reflexivity].
Defined.

(** X7. On a call id that has no session, or whose session has expired
    at the time of the call, every operation that works on a session
    reports failure -- [False], an empty history, no duration -- and the
    call id is not in the active set afterwards: none of them creates or
    revives a session. *)
Theorem operations_fail_without_live_session (now now_end now_x : datetime)
    (c speaker message intent : string) (it : option InputType) (last_n : option Z)
    (updates booking : gmap string PyVal) (m : SessionManager) :
  (sessions m !! c = None \/
   exists ref s, sessions m !! c = Some ref /\ heap m !! ref = Some s /\
                 _is_session_expired now (session_timeout m) s = true) ->
  let gone := fun m' : SessionManager => sessions m' !! c = None in
  (fst (update_session now now_end c updates m) = false /\
   gone (snd (update_session now now_end c updates m))) /\
  (fst (add_interaction now now_end now_x c speaker message it m) = false /\
   gone (snd (add_interaction now now_end now_x c speaker message it m))) /\
  (fst (set_intent now now_end c intent m) = false /\
   gone (snd (set_intent now now_end c intent m))) /\
  (fst (store_booking_data now now_end c booking m) = false /\
   gone (snd (store_booking_data now now_end c booking m))) /\
  (fst (get_conversation_history now now_end c last_n m) = [] /\
   gone (snd (get_conversation_history now now_end c last_n m))) /\
  (fst (get_session_duration now now_end now_x c m) = None /\
   gone (snd (get_session_duration now now_end now_x c m))).
Proof.
  intros H. cbv zeta.
  assert (Hg : exists m', get_session now now_end c m = (None, m') /\ sessions m' !! c = None).
  { destruct H as [Hc | (ref & s & Hc & Hs & He)].
    - exists m. unfold get_session. by rewrite Hc.
    - eexists. rewrite (get_session_expired _ _ _ _ _ _ Hc Hs He). split; [done |].
      simpl. apply lookup_delete_eq. }
  destruct Hg as (m' & Hg & Hgone).
  unfold update_session, add_interaction, set_intent, store_booking_data,
    get_conversation_history, get_session_duration.
  rewrite Hg. simpl. done.
Qed.

Lemma operations_fail_without_live_session_witness :
  fst (add_interaction (minutes 31) (minutes 31) (minutes 31) "CA1" "user" "hello" None
         one_idle_session) = false /\
  sessions (snd (add_interaction (minutes 31) (minutes 31) (minutes 31) "CA1" "user" "hello"
                   None one_idle_session)) !! "CA1" = None.
Proof.
  apply (operations_fail_without_live_session (minutes 31) (minutes 31) (minutes 31) "CA1"
           "user" "hello" "book_flight" None None ∅ ∅ one_idle_session).
  right. exists 0%nat, (mkCallSession "CA1" "+919876543210" 0 None ACTIVE [] ∅ None None None).
  repeat split; vm_compute; reflexivity.
Defined.

(** What one [store_booking_data] does to a live session. *)
Lemma store_booking_data_live (now now_end : datetime) (c : string) (b : gmap string PyVal)
    (m : SessionManager) (ref : nat) (s : CallSession) :
  sessions m !! c = Some ref ->
  heap m !! ref = Some s ->
  _is_session_expired now (session_timeout m) s = false ->
  store_booking_data now now_end c b m =
    (true, mkSessionManager
             (<[ref := set_booking_data (Some (b ∪ default ∅ (booking_data s))) s]> (heap m))
             (sessions m) (session_timeout m)).
Proof.
  intros Hc Hs He. unfold store_booking_data.
  rewrite (get_session_fresh _ now_end _ _ _ _ Hc Hs He). simpl.
  f_equal. f_equal.
  apply list_eq. intros i. destruct (decide (ref = i)) as [<- | Hne].
  - rewrite list_lookup_alter_eq, Hs, list_lookup_insert_eq by (by eapply lookup_lt_Some).
    simpl. do 3 f_equal.
    destruct (booking_data s) as [d |]; simpl; [| done].
    unfold dict_truthy. case_bool_decide as Hd; simpl; [by rewrite Hd | done].
  - by rewrite list_lookup_alter_ne, list_lookup_insert_ne.
Qed.

(** X8. Booking data is merged, never replaced: on a session that stays
    live, storing [b1] and then [b2] leaves the session with the entries
    of [b2], then those of [b1] for the keys [b2] lacks, then those it
    had before for the keys both lack; it is what storing the merged
    dict at once would leave. *)
Theorem store_booking_data_merges (now1 end1 now2 end2 : datetime) (c : string)
    (b1 b2 : gmap string PyVal) (m : SessionManager) (ref : nat) (s : CallSession) :
  sessions m !! c = Some ref ->
  heap m !! ref = Some s ->
  _is_session_expired now1 (session_timeout m) s = false ->
  _is_session_expired now2 (session_timeout m) s = false ->
  let m1 := snd (store_booking_data now1 end1 c b1 m) in
  let m2 := snd (store_booking_data now2 end2 c b2 m1) in
  fst (store_booking_data now2 end2 c b2 m1) = true /\
  heap m2 !! ref =
    Some (set_booking_data (Some (b2 ∪ b1 ∪ default ∅ (booking_data s))) s) /\
  m2 = snd (store_booking_data now2 end2 c (b2 ∪ b1) m).
Proof.
  intros Hc Hs He1 He2. cbv zeta.
  rewrite (store_booking_data_live _ end1 _ b1 _ _ _ Hc Hs He1). simpl.
  rewrite (store_booking_data_live _ end2 _ (b2 ∪ b1) _ _ _ Hc Hs He2). simpl.
  assert (Hlt : (ref < length (heap m))%nat) by (by eapply lookup_lt_Some).
  erewrite store_booking_data_live;
    [| exact Hc | simpl; by apply list_lookup_insert_eq | by rewrite expired_after_booking_change].
  simpl. rewrite list_insert_insert_eq.
  rewrite (assoc_L (∪) b2 b1).
  split; [done |]. split; [by apply list_lookup_insert_eq | done].
Qed.

(** The round trip of the specification: the origin, then the
    destination. *)
Lemma store_booking_data_merges_witness :
  let m1 := snd (store_booking_data 1 1 "CA1" booking_mumbai one_idle_session) in
  let m2 := snd (store_booking_data 2 2 "CA1" booking_to_delhi m1) in
  (booking_data <$> heap m2 !! 0%nat) =
    Some (Some (<["origin" := PStr "Mumbai"]> (<["destination" := PStr "Delhi"]> ∅))).
Proof.
  cbv zeta.
  destruct (store_booking_data_merges 1 1 2 2 "CA1" booking_mumbai booking_to_delhi
              one_idle_session 0%nat
              (mkCallSession "CA1" "+919876543210" 0 None ACTIVE [] ∅ None None None))
    as (_ & Hobj & _);
    [vm_compute; reflexivity | reflexivity | vm_compute; reflexivity
    | vm_compute; reflexivity |].
  rewrite Hobj. vm_compute. reflexivity.
Defined.

(** X9. On a live session [update_session] merges the updates into the
    context: a key of the updates gets the value of the updates, every
    other key keeps the value it had, and no other field of the session
    changes. *)
Theorem update_session_merges (now now_end : datetime) (c : string)
    (updates : gmap string PyVal) (m : SessionManager) (ref : nat) (s : CallSession) :
  sessions m !! c = Some ref ->
  heap m !! ref = Some s ->
  _is_session_expired now (session_timeout m) s = false ->
  let out := update_session now now_end c updates m in
  fst out = true /\
  sessions (snd out) = sessions m /\
  exists ctx,
    heap (snd out) !! ref = Some (set_context ctx s) /\
    forall k, ctx !! k = match updates !! k with
                         | Some v => Some v
                         | None => context s !! k
                         end.
Proof.
  intros Hc Hs He. cbv zeta. unfold update_session.
  rewrite (get_session_fresh _ now_end _ _ _ _ Hc Hs He). simpl.
  rewrite list_lookup_alter_eq, Hs. simpl.
  split; [done |]. split; [done |].
  exists (updates ∪ context s). split; [done |].
  intros k. rewrite lookup_union. by destruct (updates !! k), (context s !! k).
Qed.

Lemma update_session_merges_witness :
  let out := update_session 1 1 "CA1" (<["ai_event" := PStr "fulfilled"]> ∅) one_idle_session in
  fst out = true /\
  (context <$> heap (snd out) !! 0%nat) = Some (<["ai_event" := PStr "fulfilled"]> ∅).
Proof.
  cbv zeta.
  destruct (update_session_merges 1 1 "CA1" (<["ai_event" := PStr "fulfilled"]> ∅)
              one_idle_session 0%nat
              (mkCallSession "CA1" "+919876543210" 0 None ACTIVE [] ∅ None None None))
    as (Hok & _ & ctx & Hobj & _);
    [vm_compute; reflexivity | reflexivity | vm_compute; reflexivity |].
  split; [exact Hok | vm_compute; reflexivity].
Defined.

(** The slice that keeps the last [n] elements. *)
Lemma slice_from_last {A : Type} (n : Z) (l : list A) :
  0 < n -> slice_from (- n) l = drop (length l - Z.to_nat n) l.
Proof.
  intros Hn. unfold slice_from.
  destruct (- n <? 0)%Z eqn:Hlt; [| lia].
  f_equal. lia.
Qed.

(** X10. For a live session [get_conversation_history] returns the whole
    history when [last_n] is [None] or 0 -- zero does not mean no turn
    -- the last [last_n] turns, or all of them when there are fewer,
    when [last_n] is positive, and the history without its first
    [-last_n] turns when [last_n] is negative. The manager is not
    changed. *)
Theorem get_conversation_history_last_n (now now_end : datetime) (c : string)
    (last_n : option Z) (m : SessionManager) (ref : nat) (s : CallSession) :
  sessions m !! c = Some ref ->
  heap m !! ref = Some s ->
  _is_session_expired now (session_timeout m) s = false ->
  let out := get_conversation_history now now_end c last_n m in
  let all := interactions s in
  snd out = m /\
  match last_n with
  | None => fst out = all
  | Some n =>
      (n = 0 -> fst out = all) /\
      (0 < n -> fst out = drop (length all - Z.to_nat n) all /\
                length (fst out) = Nat.min (Z.to_nat n) (length all)) /\
      (n < 0 -> fst out = drop (Z.to_nat (- n)) all)
  end.
Proof.
  intros Hc Hs He. cbv zeta. unfold get_conversation_history.
  rewrite (get_session_fresh _ now_end _ _ _ _ Hc Hs He). simpl. rewrite Hs.
  destruct last_n as [n |]; [| done].
  case_bool_decide as Hn; simpl.
  - split; [done |]. split; [done |]. split; intros; lia.
  - split; [done |]. split; [done |]. split.
    + intros Hpos. rewrite (slice_from_last n _ Hpos). split; [done |].
      rewrite length_drop. lia.
    + intros Hneg. unfold slice_from.
      destruct (- n <? 0)%Z eqn:Hlt; [lia |].
      destruct (decide (- n <= Z.of_nat (length (interactions s)))) as [Hle | Hgt].
      * f_equal. lia.
      * rewrite !drop_ge by lia. done.
Qed.

Lemma get_conversation_history_last_n_witness :
  let m1 := snd (add_interaction 1 1 1 "CA1" "user" "Message 1" None one_idle_session) in
  let m2 := snd (add_interaction 2 2 2 "CA1" "ai" "Response 1" None m1) in
  let m3 := snd (add_interaction 3 3 3 "CA1" "user" "Message 2" None m2) in
  length (fst (get_conversation_history 4 4 "CA1" (Some 2) m3)) = 2%nat /\
  length (fst (get_conversation_history 4 4 "CA1" (Some 0) m3)) = 3%nat.
Proof.
  cbv zeta.
  set (m3 := snd (add_interaction 3 3 3 "CA1" "user" "Message 2" None _)).
  split.
  - destruct (get_conversation_history_last_n 4 4 "CA1" (Some 2) m3 0%nat
                (mkCallSession "CA1" "+919876543210" 0 None ACTIVE
                   [mkInteraction 1 "user" "Message 1" None;
                    mkInteraction 2 "ai" "Response 1" None;
                    mkInteraction 3 "user" "Message 2" None] ∅ None None None))
      as (_ & _ & Hpos & _);
      [vm_compute; reflexivity | vm_compute; reflexivity | vm_compute; reflexivity |].
    destruct Hpos as [_ ->]; [lia | reflexivity].
  - vm_compute. reflexivity.
Defined.

(** X11. A session of the active set has no end time, so for a live
    session [get_session_duration] is the time from its start to the
    clock reading of the call; the branch on [end_time] never applies. *)
Theorem get_session_duration_live (now now_end now_read : datetime) (c : string)
    (m : SessionManager) (ref : nat) (s : CallSession) :
  active_set_ok m ->
  sessions m !! c = Some ref ->
  heap m !! ref = Some s ->
  _is_session_expired now (session_timeout m) s = false ->
  get_session_duration now now_end now_read c m = (Some (now_read - start_time s), m).
Proof.
  intros [Hact _] Hc Hs He. unfold get_session_duration.
  rewrite (get_session_fresh _ now_end _ _ _ _ Hc Hs He). simpl. rewrite Hs.
  destruct (Hact c ref Hc) as (s' & Hs' & _ & _ & Hend).
  assert (s' = s) as -> by congruence. by rewrite Hend.
Qed.

Lemma get_session_duration_live_witness :
  get_session_duration (minutes 10) (minutes 10) (minutes 10) "CA1" one_idle_session =
    (Some (minutes 10), one_idle_session).
Proof.
  apply (get_session_duration_live (minutes 10) (minutes 10) (minutes 10) "CA1"
           one_idle_session 0%nat
           (mkCallSession "CA1" "+919876543210" 0 None ACTIVE [] ∅ None None None)
           one_idle_session_ok);
    [vm_compute; reflexivity | reflexivity | vm_compute; reflexivity].
Defined.

(** X12. The count of active sessions follows the life of a session:
    creating a session for a new call id adds one, creating again for
    the same id adds nothing, and ending it takes the count back. *)
Theorem active_session_count_create_end (t0 t1 t2 : datetime) (c n n' : string)
    (st : CallStatus) (m : SessionManager) :
  sessions m !! c = None ->
  let m1 := snd (create_session t0 c n m) in
  get_active_session_count m1 = S (get_active_session_count m) /\
  get_active_session_count (snd (create_session t1 c n' m1)) = get_active_session_count m1 /\
  get_active_session_count (snd (end_session t2 c st m1)) = get_active_session_count m.
Proof.
  intros Hc. cbv zeta. unfold get_active_session_count.
  rewrite create_session_twice.
  unfold create_session. rewrite Hc. simpl.
  split; [by apply map_size_insert_None |]. split; [done |].
  unfold end_session. simpl. rewrite lookup_insert_eq. simpl.
  rewrite delete_insert_eq. by rewrite delete_id.
Qed.

Lemma active_session_count_create_end_witness :
  get_active_session_count two_sessions = 2%nat /\
  get_active_session_count (snd (end_session (minutes 2) "CA2" COMPLETED two_sessions)) = 1%nat.
Proof.
  destruct (active_session_count_create_end (minutes 1) (minutes 1) (minutes 2) "CA2"
              "+15550100" "+15550100" COMPLETED one_idle_session) as (H1 & _ & H2);
    [vm_compute; reflexivity |].
  split; [exact H1 | exact H2].
Defined.

(** *** The sweep *)

(** A selection of keys from the list of a map lists no key twice. *)
Lemma omap_keys_sublist {K V : Type} (F : K * V -> option K) (l : list (K * V)) :
  (forall x y, F x = Some y -> y = x.1) -> omap F l `sublist_of` l.*1.
Proof.
  intros HF. induction l as [| x l IH]; simpl; [constructor |].
  destruct (F x) as [y |] eqn:Hx.
  - rewrite (HF x y Hx). by constructor.
  - by constructor.
Qed.

(** Ending a list of sessions, each under its own clock reading. *)
Lemma end_all_sessions (now_end_of : string -> datetime) (ids : list string)
    (m : SessionManager) :
  active_set_ok m ->
  NoDup ids ->
  (forall c, c ∈ ids -> is_Some (sessions m !! c)) ->
  let m' := foldl (fun m0 c => snd (end_session (now_end_of c) c FAILED m0)) m ids in
  (forall c, sessions m' !! c = if decide (c ∈ ids) then None else sessions m !! c) /\
  (forall ref s, heap m !! ref = Some s ->
                 (forall c, c ∈ ids -> sessions m !! c <> Some ref) ->
                 heap m' !! ref = Some s) /\
  (forall c ref s, c ∈ ids -> sessions m !! c = Some ref -> heap m !! ref = Some s ->
                   heap m' !! ref =
                     Some (set_status FAILED (set_end_time (Some (now_end_of c)) s))) /\
  (length ids + size (sessions m') = size (sessions m))%nat.
Proof.
  revert m. induction ids as [| c0 ids IH]; intros m Hok Hnd Hin; simpl.
  - repeat split; try done. intros c ref s Hc. by apply elem_of_nil in Hc.
  - apply NoDup_cons in Hnd as [Hc0 Hnd].
    destruct (Hin c0) as [ref0 Href0]; [by left |].
    pose proof (end_session_active_set_ok (now_end_of c0) c0 FAILED m Hok) as Hok1.
    rewrite (end_session_present _ _ _ _ _ Href0) in *. simpl in *.
    set (m1 := mkSessionManager _ _ _) in *.
    assert (Hs1 : forall c, c ∈ ids -> sessions m1 !! c = sessions m !! c).
    { intros c Hc. simpl. apply lookup_delete_ne. intros <-. done. }
    destruct (IH m1 Hok1 Hnd) as (IH1 & IH2 & IH3 & IH4).
    { intros c Hc. rewrite (Hs1 c Hc). apply Hin. by right. }
    split; [| split; [| split]].
    + intros c. rewrite IH1. destruct (decide (c = c0)) as [-> | Hne].
      * rewrite decide_False by done. rewrite decide_True by (by left).
        simpl. apply lookup_delete_eq.
      * destruct (decide (c ∈ ids)) as [Hc | Hc].
        -- rewrite decide_True by (by right). done.
        -- rewrite decide_False by (rewrite elem_of_cons; tauto).
           simpl. by apply lookup_delete_ne.
    + intros ref s Hs Hfree. apply IH2.
      * simpl. rewrite list_lookup_alter_ne; [done |].
        intros <-. by apply (Hfree c0); [left |].
      * intros c Hc. rewrite (Hs1 c Hc). apply Hfree. by right.
    + intros c ref s Hc Href Hs. apply elem_of_cons in Hc as [-> | Hc].
      * assert (ref = ref0) as -> by congruence.
        apply IH2.
        -- simpl. by rewrite list_lookup_alter_eq, Hs.
        -- intros c Hc. rewrite (Hs1 c Hc). intros Hc'.
           apply (active_refs_distinct m c c0 ref0 ref0 Hok Hc' Href0); [| done].
           intros ->. done.
      * apply IH3; [done | by rewrite (Hs1 c Hc) |].
        simpl. rewrite list_lookup_alter_ne; [done |].
        apply (active_refs_distinct m c0 c ref0 ref Hok Href0 Href).
        intros ->. done.
    + rewrite <- (insert_delete_id (sessions m) c0 ref0 Href0).
      rewrite map_size_insert_None by apply lookup_delete_eq.
      simpl in IH4. lia.
Qed.

(** The call ids the sweep collects: those of the sessions that have
    expired at their check, each once. *)
Lemma expired_ids_spec (now_of : string -> datetime) (m : SessionManager) :
  let ids :=
    omap (fun '(call_id, ref) =>
            match heap m !! ref with
            | Some session =>
                if _is_session_expired (now_of call_id) (session_timeout m) session
                then Some call_id else None
            | None => None
            end)
         (map_to_list (sessions m)) in
  NoDup ids /\
  forall c, c ∈ ids <->
    exists ref s, sessions m !! c = Some ref /\ heap m !! ref = Some s /\
                  _is_session_expired (now_of c) (session_timeout m) s = true.
Proof.
  cbv zeta.
  set (F := fun '(call_id, ref) =>
              match heap m !! ref with
              | Some session =>
                  if _is_session_expired (now_of call_id) (session_timeout m) session
                  then Some call_id else None
              | None => None
              end).
  split.
  - apply (sublist_NoDup _ (map_to_list (sessions m)).*1);
      [apply NoDup_fst_map_to_list |].
    apply omap_keys_sublist. intros [c' ref] y. unfold F. simpl.
    destruct (heap m !! ref) as [s |]; [| done].
    destruct (_is_session_expired (now_of c') (session_timeout m) s); [| done].
    by intros [= <-].
  - intros c. rewrite list_elem_of_omap. split.
    + intros ([c' ref] & Hin & HF). apply elem_of_map_to_list in Hin.
      unfold F in HF. destruct (heap m !! ref) as [s |] eqn:Hs; [| done].
      destruct (_is_session_expired (now_of c') (session_timeout m) s) eqn:He; [| done].
      injection HF as <-. by exists ref, s.
    + intros (ref & s & Hc & Hs & He). exists (c, ref).
      split; [by apply elem_of_map_to_list |]. unfold F. by rewrite Hs, He.
Qed.

(** X13. The sweep removes exactly the expired sessions. On a manager
    whose active set is in order, [cleanup_expired_sessions] returns the
    number of sessions it removed; a session that has expired at its
    check is removed from the active set and its object is ended with
    status [FAILED] and the clock reading of its end; every other
    session keeps its entry and its object unchanged. *)
Theorem cleanup_removes_exactly_expired (now_of now_end_of : string -> datetime)
    (m : SessionManager) :
  active_set_ok m ->
  let out := cleanup_expired_sessions now_of now_end_of m in
  (fst out + get_active_session_count (snd out) = get_active_session_count m)%nat /\
  (forall c, sessions m !! c = None -> sessions (snd out) !! c = None) /\
  (forall c ref s, sessions m !! c = Some ref -> heap m !! ref = Some s ->
     if _is_session_expired (now_of c) (session_timeout m) s
     then sessions (snd out) !! c = None /\
          heap (snd out) !! ref =
            Some (set_status FAILED (set_end_time (Some (now_end_of c)) s))
     else sessions (snd out) !! c = Some ref /\ heap (snd out) !! ref = Some s).
Proof.
  intros Hok. cbv zeta. unfold cleanup_expired_sessions, get_active_session_count. simpl.
  destruct (expired_ids_spec now_of m) as [Hnd Hids]. revert Hnd Hids.
  generalize (omap (fun '(call_id, ref) =>
                      match heap m !! ref with
                      | Some session =>
                          if _is_session_expired (now_of call_id) (session_timeout m) session
                          then Some call_id else None
                      | None => None
                      end) (map_to_list (sessions m))).
  intros ids Hnd Hids.
  destruct (end_all_sessions now_end_of ids m Hok Hnd) as (H1 & H2 & H3 & H4).
  { intros c Hc. apply Hids in Hc as (ref & s & Hc & _). by eexists. }
  split; [exact H4 |]. split.
  - intros c Hc. rewrite H1. by case_decide.
  - intros c ref s Hc Hs.
    destruct (_is_session_expired (now_of c) (session_timeout m) s) eqn:He.
    + assert (Hin : c ∈ ids) by (apply Hids; by exists ref, s).
      split; [rewrite H1; by rewrite decide_True | by apply H3].
    + assert (Hout : c ∉ ids).
      { intros (ref' & s' & Hc' & Hs' & He')%Hids. congruence. }
      split; [rewrite H1; by rewrite decide_False |].
      apply H2; [done |]. intros c' (ref' & s' & Hc' & Hs' & He')%Hids Href.
      destruct (decide (c' = c)) as [-> | Hne]; [congruence |].
      by apply (active_refs_distinct m c' c ref ref Hok Href Hc).
Qed.

(** A sweep at minute 31 over two sessions created at minutes 0 and 1,
    the second with a turn at minute 10: the first goes, the second
    stays. *)
Lemma cleanup_removes_exactly_expired_witness :
  let m := snd (add_interaction (minutes 10) (minutes 10) (minutes 10) "CA2" "user" "hello"
                  None two_sessions) in
  let out := cleanup_expired_sessions (fun _ => minutes 31) (fun _ => minutes 31) m in
  (fst out + get_active_session_count (snd out) = get_active_session_count m)%nat /\
  fst out = 1%nat /\
  sessions (snd out) !! "CA1" = None /\
  sessions (snd out) !! "CA2" = Some 1%nat.
Proof.
  cbv zeta.
  destruct (cleanup_removes_exactly_expired (fun _ => minutes 31) (fun _ => minutes 31)
              (snd (add_interaction (minutes 10) (minutes 10) (minutes 10) "CA2" "user"
                      "hello" None two_sessions))) as (Hcount & _ & _).
  { apply (apply_op_active_set_ok
             (OpAddInteraction (minutes 10) (minutes 10) (minutes 10) "CA2" "user" "hello" None)).
    exact two_sessions_ok. }
  split; [exact Hcount |]. repeat split; vm_compute; reflexivity.
Defined.

(** X14. The sweep and the lookup agree on which sessions survive: with
    the same clock reading, a call id is still in the active set after
    [cleanup_expired_sessions] exactly when [get_session] finds its
    session. *)
Theorem cleanup_agrees_with_get_session (now now_end : datetime)
    (now_end_of : string -> datetime) (c : string) (m : SessionManager) :
  active_set_ok m ->
  is_Some (sessions (snd (cleanup_expired_sessions (fun _ => now) now_end_of m)) !! c) <->
  is_Some (fst (get_session now now_end c m)).
Proof.
  intros Hok. unfold cleanup_expired_sessions. cbn [snd].
  destruct (expired_ids_spec (fun _ => now) m) as [Hnd Hids].
  set (ids := omap _ (map_to_list (sessions m))) in *. clearbody ids.
  destruct (end_all_sessions now_end_of ids m Hok Hnd) as (H1 & _).
  { intros c' Hc'. apply Hids in Hc' as (ref & s & Hc' & _). by eexists. }
  rewrite H1. unfold get_session.
  destruct (sessions m !! c) as [ref |] eqn:Hc.
  - destruct Hok as [Hact _]. destruct (Hact c ref Hc) as (s & Hs & _). rewrite Hs.
    destruct (_is_session_expired now (session_timeout m) s) eqn:He; simpl.
    + rewrite decide_True by (apply Hids; by exists ref, s).
      split; intros [? ?]; done.
    + rewrite decide_False.
      * split; intros _; by eexists.
      * intros (ref' & s' & Hc' & Hs' & He')%Hids. congruence.
  - simpl. case_decide; split; intros [? ?]; done.
Qed.

Lemma cleanup_agrees_with_get_session_witness :
  is_Some (sessions (snd (cleanup_expired_sessions (fun _ => minutes 31)
                            (fun _ => minutes 31) two_sessions)) !! "CA2") <->
  is_Some (fst (get_session (minutes 31) (minutes 31) "CA2" two_sessions)).
Proof.
  apply (cleanup_agrees_with_get_session (minutes 31) (minutes 31) (fun _ => minutes 31)
           "CA2" two_sessions two_sessions_ok).
Defined.

(* ===================================================================== *)
(** ** Further properties of the policy                                   *)
(* ===================================================================== *)

Lemma string_app_assoc (a b c : string) : (a +:+ b) +:+ c = a +:+ (b +:+ c).
Proof.
  induction a as [| x a IH]; [done |].
  change (String x ((a +:+ b) +:+ c) = String x (a +:+ (b +:+ c))). by rewrite IH.
Qed.

(** The substring relation is transitive. *)
Lemma str_in_trans (a b t : string) :
  str_in a b = true -> str_in b t = true -> str_in a t = true.
Proof.
  rewrite !str_in_occurs. intros (p1 & q1 & ->) (p2 & q2 & ->).
  exists (p2 +:+ p1), (q1 +:+ q2). by rewrite !string_app_assoc.
Qed.

(** A word that contains another word of the list adds nothing to it. *)
Lemma any_in_redundant (w w' : string) (ws : list string) (t : string) :
  str_in w' w = true -> In w' ws ->
  any_in (w :: ws) t = any_in ws t.
Proof.
  intros Hsub Hin. unfold any_in. simpl.
  destruct (str_in w t) eqn:Hw; [| done]. simpl. symmetry.
  apply existsb_exists. exists w'. split; [done |]. by apply (str_in_trans w' w t).
Qed.

(** X15. Three keywords of the policy never decide anything: an
    utterance that contains "booking" contains "book", one that contains
    "flight status" contains "status", and one that contains
    "cancellation" contains "cancel". The tests of the booking, status
    and cancellation branches give the same answer without them. *)
Theorem redundant_keywords (t : string) :
  any_in booking_words t = any_in booking_words_min t /\
  any_in status_words t = any_in status_words_min t /\
  any_in cancel_words t = any_in cancel_words_min t.
Proof.
  split; [| split].
  - unfold any_in, booking_words, booking_words_min. simpl.
    destruct (str_in "booking" t) eqn:H; [| done].
    rewrite (str_in_trans "book" "booking" t eq_refl H). by rewrite orb_true_r.
  - unfold any_in, status_words, status_words_min. simpl.
    destruct (str_in "flight status" t) eqn:H; [| by rewrite !orb_false_r].
    by rewrite (str_in_trans "status" "flight status" t eq_refl H).
  - unfold any_in, cancel_words, cancel_words_min. simpl.
    destruct (str_in "cancellation" t) eqn:H; [| done].
    by rewrite (str_in_trans "cancel" "cancellation" t eq_refl H).
Qed.

(** Without a keyword and outside a booking in progress the policy
    returns the general fallback and leaves the session alone. *)
Lemma mock_general_fallback (lower : string -> string) (u : string) (s : CallSession) :
  keyword_matched (lower u) = false ->
  current_intent s <> Some "book_flight" \/ opt_dict_truthy (booking_data s) = false ->
  _mock_ai_response lower u s =
    (s, inr (mkResponse (call_id s)
               "I didn't quite understand. You can say 'book a flight', 'check flight status', or 'cancel booking'."
               "unknown" None 0.85%Q ∅)).
Proof.
  intros Hkw H. unfold _mock_ai_response.
  rewrite (mock_branches_no_route _ _ _ Hkw). unfold context_branches.
  destruct H as [Hi | Hb].
  - by rewrite bool_decide_eq_false_2.
  - rewrite Hb, andb_false_r. done.
Qed.

(** X16. An utterance without any keyword, on a session that has no
    booking in progress -- its intent is not "book_flight", or its
    booking data is missing or empty -- gets the intent "unknown", no
    action, and the reply that lists what the caller can say; the
    session is not changed. *)
Theorem mock_unknown_fallback (lower : string -> string) (u : string) (s : CallSession) :
  keyword_matched (lower u) = false ->
  current_intent s <> Some "book_flight" \/ booking_data s = None \/ booking_data s = Some ∅ ->
  exists r,
    _mock_ai_response lower u s = (s, inr r) /\
    r_intent r = "unknown" /\ r_action r = None /\
    r_message r =
      "I didn't quite understand. You can say 'book a flight', 'check flight status', or 'cancel booking'.".
Proof.
  intros Hkw H. eexists. split.
  - apply mock_general_fallback; [done |].
    destruct H as [Hi | [-> | ->]]; [by left | by right | by right].
  - done.
Qed.

Lemma mock_unknown_fallback_witness :
  exists r,
    _mock_ai_response lower_ascii "asdkjalksd" (session_of None None) =
      (session_of None None, inr r) /\
    r_intent r = "unknown" /\ r_action r = None.
Proof.
  destruct (mock_unknown_fallback lower_ascii "asdkjalksd" (session_of None None))
    as (r & Hr & Hi & Ha & _); [vm_compute; reflexivity | by left |].
  by exists r.
Defined.

(** X17. The outcomes of the policy. A call raises exactly on a turn of
    slot filling that fills a slot, and then the exception is the
    [UnboundLocalError] for [intent]; it never raises [KeyError] from
    the confirmation prompt. On every other input it returns a result
    and leaves the session as it was. *)
Theorem mock_outcomes (lower : string -> string) (u : string) (s : CallSession) :
  match snd (_mock_ai_response lower u s) with
  | inl e => e = UnboundLocalError "intent" /\ fills_a_slot lower u s
  | inr r => ~ fills_a_slot lower u s /\ fst (_mock_ai_response lower u s) = s
  end.
Proof.
  destruct (keyword_matched (lower u)) eqn:Hkw.
  { destruct (existsb_find _ _ Hkw) as [rt Hrt].
    rewrite (mock_response_route _ _ _ _ Hrt). simpl.
    split; [| done]. intros (Hkw' & _). congruence. }
  destruct (decide (current_intent s = Some "book_flight")) as [Hi | Hi].
  2:{ rewrite mock_general_fallback by (done || by left). simpl.
      split; [| done]. intros (_ & Hi' & _). done. }
  destruct (booking_data s) as [b |] eqn:Hb.
  2:{ rewrite mock_general_fallback by (done || (right; by rewrite Hb)). simpl.
      split; [| done]. intros (_ & _ & b & Hb' & _). congruence. }
  destruct (decide (b = ∅)) as [-> | Hne].
  { rewrite mock_general_fallback by (done || (right; by rewrite Hb)). simpl.
    split; [| done]. intros (_ & _ & b & Hb' & Hne & _). congruence. }
  destruct (first_missing b) as [f |] eqn:Hf.
  - destruct (mock_slot_turn lower u s b f Hkw Hi Hb Hne Hf) as [_ ->]. simpl.
    split; [done |]. repeat split; try done. exists b. rewrite Hf. by repeat split.
  - rewrite (mock_complete_booking_falls_back lower u s b Hkw Hi Hb Hf). simpl.
    split; [| done]. intros (_ & _ & b' & Hb' & _ & Hsome).
    assert (b' = b) as -> by congruence. rewrite Hf in Hsome. by destruct Hsome.
Qed.

(** The session after a turn that fills a slot. *)
Lemma turn_fills (lower : string -> string) (u : string) (s : CallSession)
    (b : gmap string PyVal) (f : string) :
  keyword_matched (lower u) = false ->
  current_intent s = Some "book_flight" ->
  booking_data s = Some b ->
  b <> ∅ ->
  first_missing b = Some f ->
  fst (_mock_ai_response lower u s) = set_booking_data (Some (<[f := PStr u]> b)) s.
Proof.
  intros Hkw Hi Hb Hne Hf.
  by destruct (mock_slot_turn lower u s b f Hkw Hi Hb Hne Hf) as [_ ->].
Qed.

Ltac first_missing_by_lookup :=
  unfold first_missing, slot_order; simpl; rewrite !dict_in_lookup;
  simplify_map_eq; reflexivity.

(** X18. Five turns of slot filling in a row. On a session with a
    booking in progress whose dict is not empty and holds none of the
    five slots, five utterances without keywords are stored, in the
    order they come, as origin, destination, date, passenger name and
    contact; nothing else in the session changes; and a sixth utterance
    is answered with the request to rephrase and stored nowhere. *)
Theorem five_turns_fill_the_booking (lower : string -> string) (s : CallSession)
    (b : gmap string PyVal) (u1 u2 u3 u4 u5 u6 : string) :
  Forall (fun u => keyword_matched (lower u) = false) [u1; u2; u3; u4; u5; u6] ->
  current_intent s = Some "book_flight" ->
  booking_data s = Some b ->
  b <> ∅ ->
  Forall (fun slot => b !! slot = None) slot_order ->
  let filled :=
    <["contact" := PStr u5]> (<["passenger_name" := PStr u4]> (<["date" := PStr u3]>
    (<["destination" := PStr u2]> (<["origin" := PStr u1]> b)))) in
  let s5 := after_turns lower [u1; u2; u3; u4; u5] s in
  s5 = set_booking_data (Some filled) s /\
  _mock_ai_response lower u6 s5 =
    (s5, inr (mkResponse (call_id s) "I didn't quite understand. Could you rephrase that?"
                "unknown" None 0.85%Q ∅)).
Proof.
  intros Hkw Hi Hb Hne Hslots. cbv zeta.
  repeat (apply Forall_cons in Hkw as [? Hkw]).
  unfold slot_order in Hslots. repeat (apply Forall_cons in Hslots as [? Hslots]).
  assert (Hfive : after_turns lower [u1; u2; u3; u4; u5] s =
               set_booking_data
                 (Some (<["contact" := PStr u5]> (<["passenger_name" := PStr u4]>
                         (<["date" := PStr u3]> (<["destination" := PStr u2]>
                         (<["origin" := PStr u1]> b)))))) s).
  { unfold after_turns. simpl.
    rewrite (turn_fills lower u1 s b "origin"); try done; try first_missing_by_lookup.
    rewrite (turn_fills lower u2 _ (<["origin" := PStr u1]> b) "destination"); try done; try apply insert_non_empty; try first_missing_by_lookup.
    rewrite (turn_fills lower u3 _ (<["destination" := PStr u2]> (<["origin" := PStr u1]> b))
               "date"); try done; try apply insert_non_empty; try first_missing_by_lookup.
    rewrite (turn_fills lower u4 _
               (<["date" := PStr u3]> (<["destination" := PStr u2]>
                 (<["origin" := PStr u1]> b))) "passenger_name"); try done; try apply insert_non_empty; try first_missing_by_lookup.
    rewrite (turn_fills lower u5 _
               (<["passenger_name" := PStr u4]> (<["date" := PStr u3]>
                 (<["destination" := PStr u2]> (<["origin" := PStr u1]> b)))) "contact");
      try done; try apply insert_non_empty; try first_missing_by_lookup. }
  split; [exact Hfive |]. rewrite Hfive.
  rewrite (mock_complete_booking_falls_back lower u6 _
             (<["contact" := PStr u5]> (<["passenger_name" := PStr u4]>
               (<["date" := PStr u3]> (<["destination" := PStr u2]>
               (<["origin" := PStr u1]> b)))))); try done.
  first_missing_by_lookup.
Qed.

Lemma five_turns_fill_the_booking_witness :
  let s := session_of (Some "book_flight") (Some (<["booking_type" := PStr "domestic"]> ∅)) in
  booking_data
    (after_turns lower_ascii ["Mumbai"; "Delhi"; "2025-11-15"; "John Doe"; "+919876543210"] s)
  = Some (<["booking_type" := PStr "domestic"]> booking_full).
Proof.
  cbv zeta.
  destruct (five_turns_fill_the_booking lower_ascii
              (session_of (Some "book_flight") (Some (<["booking_type" := PStr "domestic"]> ∅)))
              (<["booking_type" := PStr "domestic"]> ∅)
              "Mumbai" "Delhi" "2025-11-15" "John Doe" "+919876543210" "yes")
    as [H5 _].
  - repeat constructor; vm_compute; reflexivity.
  - reflexivity.
  - reflexivity.
  - vm_compute. discriminate.
  - repeat constructor; vm_compute; reflexivity.
  - rewrite H5. vm_compute. reflexivity.
Defined.

(* ===================================================================== *)
(** ** The intent helpers of the other back ends                          *)
(* ===================================================================== *)

Lemma any_in_booking_false (t : string) :
  any_in booking_words t = false -> str_in "book" t = false.
Proof.
  unfold any_in, booking_words. simpl. intros H.
  by apply orb_false_elim in H as [-> _].
Qed.

Lemma any_in_status (t : string) :
  any_in status_words t = str_in "status" t || str_in "check" t.
Proof.
  unfold any_in, status_words. simpl.
  destruct (str_in "flight status" t) eqn:H; [| by rewrite !orb_false_r].
  by rewrite (str_in_trans "status" "flight status" t eq_refl H).
Qed.

Lemma any_in_cancel (t : string) : any_in cancel_words t = str_in "cancel" t.
Proof.
  unfold any_in, cancel_words. simpl.
  destruct (str_in "cancellation" t) eqn:H; [| by rewrite !orb_false_r].
  by rewrite (str_in_trans "cancel" "cancellation" t eq_refl H).
Qed.

(** X19. On the OpenAI path the action is [_determine_action] of
    [_extract_intent]. It is the action of a booking, of a status check
    or of a cancellation, and it is [None] exactly when the intent is
    "general_inquiry", that is when the lower-cased utterance contains
    none of "book", "status", "check", "cancel"; it is never
    "transfer_agent", whatever the caller says. *)
Theorem extract_then_determine (lower : string -> string) (u reply : string) :
  let intent := _extract_intent lower u reply in
  let action := _determine_action (Some intent) in
  action <> Some "transfer_agent" /\
  (action = None <-> intent = "general_inquiry") /\
  (intent = "general_inquiry" <->
     str_in "book" (lower u) = false /\ str_in "status" (lower u) = false /\
     str_in "check" (lower u) = false /\ str_in "cancel" (lower u) = false) /\
  (intent, action) ∈
    [("book_flight", Some "collect_booking_type"); ("check_status", Some "collect_flight_id");
     ("cancel_booking", Some "collect_booking_id"); ("general_inquiry", None)].
Proof.
  cbv zeta. unfold _extract_intent.
  destruct (str_in "book" (lower u)); [| destruct (str_in "status" (lower u));
    [| destruct (str_in "check" (lower u)); [| destruct (str_in "cancel" (lower u))]]];
    simpl; (split; [vm_compute; discriminate |]);
    (split; [split; intros H; vm_compute in H |- *; (discriminate || reflexivity) |]);
    (split; [split; [intros H; (discriminate || by repeat split)
                    | intros (? & ? & ? & ?); (discriminate || reflexivity)] |]);
    rewrite !elem_of_cons; vm_compute; tauto.
Qed.

(** What the policy returns when it returns: the reply of the first
    matching row, or an "unknown" reply when no row matches. *)
Lemma mock_returns_cases (lower : string -> string) (u : string) (s : CallSession)
    (r : Response) :
  snd (_mock_ai_response lower u s) = inr r ->
  (exists rt, List.find (route_matches (lower u)) routing_table = Some rt /\
              r = route_response s rt) \/
  (keyword_matched (lower u) = false /\ r_intent r = "unknown" /\ r_action r = None).
Proof.
  destruct (keyword_matched (lower u)) eqn:Hkw.
  { destruct (existsb_find _ _ Hkw) as [rt Hrt].
    rewrite (mock_response_route _ _ _ _ Hrt). simpl. intros [= <-]. left. by exists rt. }
  intros Hr. right. split; [done |].
  destruct (decide (current_intent s = Some "book_flight")) as [Hi | Hi].
  2:{ rewrite mock_general_fallback in Hr by (done || by left).
      simpl in Hr. by injection Hr as <-. }
  destruct (booking_data s) as [b |] eqn:Hb.
  2:{ rewrite mock_general_fallback in Hr by (done || (right; by rewrite Hb)).
      simpl in Hr. by injection Hr as <-. }
  destruct (decide (b = ∅)) as [-> | Hne].
  { rewrite mock_general_fallback in Hr by (done || (right; by rewrite Hb)).
    simpl in Hr. by injection Hr as <-. }
  destruct (first_missing b) as [f |] eqn:Hf.
  - destruct (mock_slot_turn lower u s b f Hkw Hi Hb Hne Hf) as [_ Hm].
    rewrite Hm in Hr. discriminate.
  - rewrite (mock_complete_booking_falls_back lower u s b Hkw Hi Hb Hf) in Hr.
    simpl in Hr. by injection Hr as <-.
Qed.

(** X20. The two intent classifiers of the connector, on the same
    utterance. When [_extract_intent] says "book_flight" the mock policy
    says so too; when the mock policy says "check_status" or
    "cancel_booking", [_extract_intent] says the same; and for the other
    intents of the mock policy -- domestic or international flight,
    agent, unknown -- [_extract_intent] says "general_inquiry". *)
Theorem extract_intent_agrees_with_mock (lower : string -> string) (u reply : string)
    (s : CallSession) (r : Response) :
  snd (_mock_ai_response lower u s) = inr r ->
  let intent := _extract_intent lower u reply in
  (intent = "book_flight" -> r_intent r = "book_flight") /\
  (r_intent r = "check_status" -> intent = "check_status") /\
  (r_intent r = "cancel_booking" -> intent = "cancel_booking") /\
  (r_intent r <> "book_flight" -> r_intent r <> "check_status" ->
   r_intent r <> "cancel_booking" -> intent = "general_inquiry").
Proof.
  intros Hr. cbv zeta. unfold _extract_intent.
  apply mock_returns_cases in Hr as [(rt & Hrt & ->) | (Hkw & Hi & _)].
  - revert Hrt.
    cbv beta iota zeta delta
      [routing_table route_matches List.find rt_words booking_route status_route
       cancel_route domestic_route international_route agent_route].
    destruct (any_in booking_words (lower u)) eqn:Hb.
    { intros [= <-]. simpl. repeat split; (done || (intros; congruence)). }
    rewrite (any_in_booking_false _ Hb).
    rewrite any_in_status, any_in_cancel.
    destruct (str_in "status" (lower u) || str_in "check" (lower u)) eqn:Hs.
    { intros [= <-]. simpl. repeat split; (done || (intros; congruence)). }
    destruct (str_in "cancel" (lower u)) eqn:Hc.
    { intros [= <-]. simpl. repeat split; (done || (intros; congruence)). }
    destruct (any_in domestic_words (lower u)); [intros [= <-]; by simpl |].
    destruct (any_in international_words (lower u)); [intros [= <-]; by simpl |].
    destruct (any_in agent_words (lower u)); [intros [= <-]; by simpl |].
    discriminate.
  - rewrite Hi.
    assert (Hb : any_in booking_words (lower u) = false /\
                 any_in status_words (lower u) = false /\
                 any_in cancel_words (lower u) = false).
    { revert Hkw.
      cbv beta iota zeta delta
        [keyword_matched routing_table route_matches existsb rt_words booking_route
         status_route cancel_route domestic_route international_route agent_route].
      destruct (any_in booking_words (lower u)); [discriminate |].
      destruct (any_in status_words (lower u)); [discriminate |].
      destruct (any_in cancel_words (lower u)); [discriminate |]. done. }
    destruct Hb as (Hb & Hs & Hc).
    rewrite (any_in_booking_false _ Hb).
    rewrite any_in_status in Hs. rewrite any_in_cancel in Hc. rewrite Hs, Hc.
    done.
Qed.

Lemma extract_intent_agrees_with_mock_witness :
  exists r,
    snd (_mock_ai_response lower_ascii "check my flight status" (session_of None None)) = inr r /\
    r_intent r = "check_status" /\
    _extract_intent lower_ascii "check my flight status" "" = "check_status".
Proof.
  eexists. split; [vm_compute; reflexivity |]. split; [reflexivity |].
  eapply (extract_intent_agrees_with_mock lower_ascii "check my flight status" ""
            (session_of None None)); [vm_compute; reflexivity | reflexivity].
Defined.

(* ===================================================================== *)
(** ** Further properties of the transaction processors                   *)
(* ===================================================================== *)

Section Booking_accepts.

Variable coerce_str : PyVal -> option string.
Variable coerce_int : PyVal -> option Z.

(** A validated [str] field was supplied, converts to the validated
    text, and that text is within the bounds. *)
Lemma required_str_ok (data : gmap string PyVal) (name : string)
    (min_length max_length : option nat) (v : string) :
  required_str coerce_str data name min_length max_length = inr v ->
  (exists x, data !! name = Some x /\ coerce_str x = Some v) /\
  (forall n, min_length = Some n -> (n <= String.length v)%nat) /\
  (forall n, max_length = Some n -> (String.length v <= n)%nat).
Proof.
  unfold required_str. destruct (data !! name) as [x |]; [| discriminate].
  destruct (coerce_str x) as [s |] eqn:Hx; [| discriminate].
  destruct (from_option (fun n => (String.length s <? n)%nat) false min_length) eqn:Hmin;
    [discriminate |].
  destruct (from_option (fun n => (n <? String.length s)%nat) false max_length) eqn:Hmax;
    [discriminate |].
  intros [= <-]. split; [by exists x |]. split.
  - intros n ->. simpl in Hmin. apply Nat.ltb_ge in Hmin. lia.
  - intros n ->. simpl in Hmax. apply Nat.ltb_ge in Hmax. lia.
Qed.

Lemma bounded_int_ok (data : gmap string PyVal) (name : string) (dflt ge le n : Z) :
  bounded_int coerce_int data name dflt ge le = inr n ->
  (data !! name = None /\ n = dflt) \/
  (exists x, data !! name = Some x /\ coerce_int x = Some n /\ ge <= n <= le).
Proof.
  unfold bounded_int. destruct (data !! name) as [x |]; [| intros [= <-]; by left].
  destruct (coerce_int x) as [k |] eqn:Hx; [| discriminate].
  case_bool_decide; [discriminate |]. case_bool_decide; [discriminate |].
  intros [= <-]. right. exists x. repeat split; [done | lia | lia].
Qed.

(** X21. A booking that is confirmed is a valid one. When
    [process_flight_booking] returns a result, the result says success,
    its booking id is "BK" followed by the time stamp, its message names
    the origin and the destination, the six required fields were all
    supplied, origin and destination have between 3 and 50 characters,
    and the number of passengers is between 1 and 9, or 1 when the
    request gives none. *)
Theorem process_flight_booking_accepts_valid_only (stamp call_id : string)
    (data : gmap string PyVal) (r : BookingResult) :
  process_flight_booking coerce_str coerce_int stamp call_id data = inr r ->
  let b := b_details r in
  b_success r = true /\
  b_booking_id r = "BK" +:+ stamp /\
  b_message r = "Booking confirmed from " +:+ origin b +:+ " to " +:+ destination b /\
  Forall (fun f => is_Some (data !! f)) required_fields /\
  (3 <= String.length (origin b) <= 50)%nat /\
  (3 <= String.length (destination b) <= 50)%nat /\
  1 <= num_passengers b <= 9 /\
  (data !! "num_passengers" = None -> num_passengers b = 1).
Proof.
  unfold process_flight_booking, FlightBooking_init.
  destruct (required_str coerce_str data "origin" _ _) as [| o] eqn:H1; [discriminate |].
  destruct (required_str coerce_str data "destination" _ _) as [| d] eqn:H2; [discriminate |].
  destruct (required_str coerce_str data "travel_date" _ _) as [| t] eqn:H3; [discriminate |].
  destruct (required_str coerce_str data "passenger_name" _ _) as [| pn] eqn:H4;
    [discriminate |].
  destruct (required_str coerce_str data "passenger_contact" _ _) as [| pc] eqn:H5;
    [discriminate |].
  destruct (required_str coerce_str data "booking_type" _ _) as [| bt] eqn:H6;
    [discriminate |].
  destruct (bounded_int coerce_int data "num_passengers" _ _ _) as [| n] eqn:H7;
    [discriminate |].
  intros [= <-]. cbv zeta. simpl.
  apply required_str_ok in H1 as ((x1 & Hx1 & _) & Hmin1 & Hmax1).
  apply required_str_ok in H2 as ((x2 & Hx2 & _) & Hmin2 & Hmax2).
  apply required_str_ok in H3 as ((x3 & Hx3 & _) & _).
  apply required_str_ok in H4 as ((x4 & Hx4 & _) & _).
  apply required_str_ok in H5 as ((x5 & Hx5 & _) & _).
  apply required_str_ok in H6 as ((x6 & Hx6 & _) & _).
  pose proof (Hmin1 _ eq_refl). pose proof (Hmax1 _ eq_refl).
  pose proof (Hmin2 _ eq_refl). pose proof (Hmax2 _ eq_refl).
  split; [done |]. split; [done |]. split; [done |].
  split; [unfold required_fields; repeat constructor; by eexists |].
  split; [lia |]. split; [lia |].
  apply bounded_int_ok in H7 as [[Hnone ->] | (x & Hx & _ & Hb)].
  - split; [lia | done].
  - split; [lia |]. intros Hnone. congruence.
Qed.

End Booking_accepts.

Lemma process_flight_booking_accepts_valid_only_witness :
  exists r,
    process_flight_booking strict_str strict_int "20251115143000" "CA1" request_full = inr r /\
    b_booking_id r = "BK20251115143000" /\
    num_passengers (b_details r) = 1.
Proof.
  eexists. split; [vm_compute; reflexivity |].
  destruct (process_flight_booking_accepts_valid_only strict_str strict_int
              "20251115143000" "CA1" request_full _ eq_refl) as (_ & Hid & _).
  split; [exact Hid | reflexivity].
Defined.

(** X22. The length bounds and the passenger bounds of a booking are
    enforced at their edges: an origin of two characters, and a number
    of passengers of 0 or of 10, make the processor raise, each with the
    error of its field; an origin of three characters and 9 passengers
    are accepted. *)
Theorem process_flight_booking_bounds (stamp call_id : string) (data : gmap string PyVal)
    (o : string) (n : Z) :
  data !! "origin" = Some (PStr o) ->
  data !! "num_passengers" = Some (PInt n) ->
  ((String.length o < 3)%nat ->
     exists errors,
       process_flight_booking strict_str strict_int stamp call_id data =
         inl (ValidationError errors) /\ ("origin", TooShort) ∈ errors) /\
  ((50 < String.length o)%nat ->
     exists errors,
       process_flight_booking strict_str strict_int stamp call_id data =
         inl (ValidationError errors) /\ ("origin", TooLong) ∈ errors) /\
  (n < 1 ->
     exists errors,
       process_flight_booking strict_str strict_int stamp call_id data =
         inl (ValidationError errors) /\ ("num_passengers", BelowMinimum) ∈ errors) /\
  (9 < n ->
     exists errors,
       process_flight_booking strict_str strict_int stamp call_id data =
         inl (ValidationError errors) /\ ("num_passengers", AboveMaximum) ∈ errors).
Proof.
  intros Ho Hn.
  assert (Hraise : forall e,
            e ∈ validation_errors strict_str strict_int data ->
            exists errors,
              process_flight_booking strict_str strict_int stamp call_id data =
                inl (ValidationError errors) /\ e ∈ errors).
  { intros e He. eexists. split; [| exact He].
    unfold process_flight_booking. rewrite FlightBooking_init_raises; [done |].
    intros Hnil. rewrite Hnil in He. by apply elem_of_nil in He. }
  repeat split; intros Hb; apply Hraise; unfold validation_errors.
  - unfold required_str at 1. rewrite Ho. simpl.
    apply Nat.ltb_lt in Hb. rewrite Hb. simpl. by left.
  - unfold required_str at 1. rewrite Ho. simpl.
    assert ((String.length o <? 3)%nat = false) as -> by (apply Nat.ltb_ge; lia).
    apply Nat.ltb_lt in Hb. rewrite Hb. simpl. by left.
  - rewrite !elem_of_app. do 6 right.
    unfold bounded_int. rewrite Hn. simpl.
    rewrite bool_decide_eq_true_2 by lia. simpl. by left.
  - rewrite !elem_of_app. do 6 right.
    unfold bounded_int. rewrite Hn. simpl.
    rewrite bool_decide_eq_false_2 by lia. rewrite bool_decide_eq_true_2 by lia.
    simpl. by left.
Qed.

Lemma process_flight_booking_bounds_witness :
  exists errors,
    process_flight_booking strict_str strict_int "20251115143000" "CA1"
      (<["num_passengers" := PInt 10]> request_full) = inl (ValidationError errors) /\
    ("num_passengers", AboveMaximum) ∈ errors.
Proof.
  destruct (process_flight_booking_bounds "20251115143000" "CA1"
              (<["num_passengers" := PInt 10]> request_full) "Mumbai" 10)
    as (_ & _ & _ & H); [vm_compute; reflexivity | vm_compute; reflexivity |].
  apply H. lia.
Defined.



(* ===================================================================== *)
(** ** The Twilio request parser                                          *)
(* ===================================================================== *)

(** X24. How a Twilio request is classified. The input type is "speech"
    exactly when the request has a speech result that is not empty, and
    then the user input is that speech result, whatever digits came with
    it; otherwise the input type is "dtmf" and the user input is the
    digits -- so a request with neither is classified as keypad input
    with the input [None]. *)
Theorem parse_twilio_request_input (form_data : gmap string PyVal) :
  let r := parse_twilio_request form_data in
  let speech := dict_get form_data "SpeechResult" in
  (py_truthy speech = true ->
     tw_input_type r = "speech" /\ tw_user_input r = speech) /\
  (py_truthy speech = false ->
     tw_input_type r = "dtmf" /\ tw_user_input r = dict_get form_data "Digits") /\
  (form_data !! "SpeechResult" = None -> form_data !! "Digits" = None ->
     tw_input_type r = "dtmf" /\ tw_user_input r = PNone).
Proof.
  cbv zeta. unfold parse_twilio_request, py_or. simpl.
  split; [| split].
  - by intros ->.
  - by intros ->.
  - unfold dict_get. by intros -> ->.
Qed.

(** An empty speech result with a digit. *)
Lemma parse_twilio_request_input_witness :
  let form := <["SpeechResult" := PStr ""]> (<["Digits" := PStr "5"]> ∅) in
  tw_input_type (parse_twilio_request form) = "dtmf" /\
  tw_user_input (parse_twilio_request form) = PStr "5".
Proof.
  cbv zeta.
  destruct (parse_twilio_request_input (<["SpeechResult" := PStr ""]> (<["Digits" := PStr "5"]> ∅)))
    as (_ & H & _).
  destruct H as [H1 H2]; [vm_compute; reflexivity |].
  split; [exact H1 | rewrite H2; vm_compute; reflexivity].
Defined.

(* ===================================================================== *)
(** ** Escaping of markup                                                 *)
(* ===================================================================== *)

Lemma string_cons_app (c : ascii) (a b : string) :
  String c a +:+ b = String c (a +:+ b).
Proof. reflexivity. Qed.

Lemma replace_char_app (old : ascii) (new a b : string) :
  replace_char old new (a +:+ b) = replace_char old new a +:+ replace_char old new b.
Proof.
  induction a as [| c a IH]; [done |].
  rewrite string_cons_app. simpl. rewrite IH.
  destruct (Ascii.eqb c old); [by rewrite string_app_assoc | done].
Qed.

(** The four replacements that follow the one of the ampersand. *)
Lemma escape_xml_unfold (text : string) :
  _escape_xml text =
    replace_char "'"%char "&apos;"
      (replace_char dquote "&quot;"
         (replace_char ">"%char "&gt;"
            (replace_char "<"%char "&lt;"
               (replace_char "&"%char "&amp;" text)))).
Proof. reflexivity. Qed.

Lemma escape_xml_app (a b : string) : _escape_xml (a +:+ b) = _escape_xml a +:+ _escape_xml b.
Proof. rewrite !escape_xml_unfold. by rewrite !replace_char_app. Qed.

Lemma escape_xml_one (c : ascii) : _escape_xml (String c EmptyString) = escape_char c.
Proof.
  rewrite escape_xml_unfold. unfold escape_char. simpl.
  destruct (Ascii.eqb c "&") eqn:H1; [reflexivity |]. simpl.
  destruct (Ascii.eqb c "<") eqn:H2; [reflexivity |]. simpl.
  destruct (Ascii.eqb c ">") eqn:H3; [reflexivity |]. simpl.
  destruct (Ascii.eqb c dquote) eqn:H4; [reflexivity |]. simpl.
  destruct (Ascii.eqb c "'") eqn:H5; reflexivity.
Qed.

(** The replacements, made one after the other over the whole text,
    come to escaping each character on its own. *)
Lemma escape_xml_each (text : string) : _escape_xml text = escape_each text.
Proof.
  induction text as [| c text IH]; [reflexivity |].
  change (String c text) with (String c EmptyString +:+ text).
  rewrite escape_xml_app, escape_xml_one, IH. reflexivity.
Qed.

Lemma list_ascii_of_string_app (a b : string) :
  list_ascii_of_string (a +:+ b) = (list_ascii_of_string a ++ list_ascii_of_string b)%list.
Proof.
  induction a as [| c a IH]; [done |].
  rewrite string_cons_app. simpl. by rewrite IH.
Qed.

Lemma escape_char_clean (c x : ascii) :
  In x (list_ascii_of_string (escape_char c)) -> ~ In x markup_chars.
Proof.
  unfold escape_char, markup_chars.
  destruct (Ascii.eqb c "&") eqn:H1;
    [simpl; intros Hx Hm; decompose [or] Hx; decompose [or] Hm; subst; (done || discriminate) |].
  destruct (Ascii.eqb c "<") eqn:H2;
    [simpl; intros Hx Hm; decompose [or] Hx; decompose [or] Hm; subst; (done || discriminate) |].
  destruct (Ascii.eqb c ">") eqn:H3;
    [simpl; intros Hx Hm; decompose [or] Hx; decompose [or] Hm; subst; (done || discriminate) |].
  destruct (Ascii.eqb c dquote) eqn:H4;
    [simpl; intros Hx Hm; decompose [or] Hx; decompose [or] Hm; subst; (done || discriminate) |].
  destruct (Ascii.eqb c "'") eqn:H5;
    [simpl; intros Hx Hm; decompose [or] Hx; decompose [or] Hm; subst; (done || discriminate) |].
  simpl. intros [<- | []] Hm.
  apply Ascii.eqb_neq in H2, H3, H4, H5.
  decompose [or] Hm; congruence.
Qed.

(** X25. The text that [_escape_xml] returns contains none of the
    characters <, >, double quote and apostrophe; and because the
    ampersand is replaced first, the ampersands of the entities put in
    by the later replacements are not escaped a second time: the result
    is the text with each character escaped on its own. *)
Theorem escape_xml_clean (text : string) :
  _escape_xml text = escape_each text /\
  forall x, In x (list_ascii_of_string (_escape_xml text)) -> ~ In x markup_chars.
Proof.
  split; [apply escape_xml_each |].
  rewrite escape_xml_each. induction text as [| c text IH]; simpl; [done |].
  intros x. rewrite list_ascii_of_string_app, in_app_iff.
  intros [Hx | Hx]; [by apply (escape_char_clean c) | by apply IH].
Qed.

Lemma string_nil_app (a : string) : EmptyString +:+ a = a.
Proof. reflexivity. Qed.

Ltac expose_chars H := rewrite ?string_cons_app, ?string_nil_app in H.

Ltac char_cases c :=
  unfold escape_char;
  destruct (Ascii.eqb c "&") eqn:?;
    [| destruct (Ascii.eqb c "<") eqn:?;
       [| destruct (Ascii.eqb c ">") eqn:?;
          [| destruct (Ascii.eqb c dquote) eqn:?;
             [| destruct (Ascii.eqb c "'") eqn:?]]]].

Ltac eqb_facts :=
  repeat match goal with
         | H : Ascii.eqb _ _ = true |- _ => apply Ascii.eqb_eq in H
         | H : Ascii.eqb _ _ = false |- _ => apply Ascii.eqb_neq in H
         end.

(** The escaped form of a character, at the head of a text, determines
    the character and the rest of the text. *)
Lemma escape_char_head_inj (c d : ascii) (x y : string) :
  escape_char c +:+ x = escape_char d +:+ y -> c = d /\ x = y.
Proof.
  char_cases c; char_cases d; intros H; expose_chars H; eqb_facts;
    try (injection H; intros; subst; (done || congruence)).
Qed.

Lemma escape_char_not_empty (c : ascii) (x : string) : escape_char c +:+ x <> EmptyString.
Proof. char_cases c; intros H; expose_chars H; discriminate. Qed.

(** X26. Escaping loses nothing: two texts with the same escaped form
    are the same text. *)
Theorem escape_xml_injective (a b : string) : _escape_xml a = _escape_xml b -> a = b.
Proof.
  rewrite !escape_xml_each. revert b.
  induction a as [| c a IH]; intros [| d b]; simpl; intros H.
  - done.
  - symmetry in H. by apply escape_char_not_empty in H.
  - by apply escape_char_not_empty in H.
  - apply escape_char_head_inj in H as [-> H]. f_equal. by apply IH.
Qed.

(** A text that is already escaped is escaped again, to a different
    text. *)
Lemma escape_xml_injective_witness :
  "a < b" <> "a &lt; b" /\ _escape_xml "a < b" <> _escape_xml "a &lt; b".
Proof.
  split; [discriminate |].
  intros H. apply (escape_xml_injective "a < b" "a &lt; b") in H. discriminate.
Defined.

(* ===================================================================== *)
(** ** The confirmation page                                              *)
(* ===================================================================== *)

(** X27. What the caller hears after a status check. The result of
    [process_status_check] for a flight that is found has no message,
    so its confirmation page reads "Transaction completed. Is there
    anything else I can help you with?": the page is the same for every
    flight found and tells neither the flight nor its status. For a
    flight that is not found the page reads "Sorry, there was an issue:
    Flight not found. Would you like to try again?". *)
Theorem status_check_confirmation (base_url call_id : string) (data : gmap string PyVal) :
  let page := generate_confirmation_vxml base_url call_id (process_status_check call_id data) in
  let found := data !! "flight_id" = Some (PStr "AI1") \/
               data !! "flight_id" = Some (PStr "AI2") in
  (found ->
     page = inr (confirmation_page base_url call_id
                   "Transaction completed. Is there anything else I can help you with?")) /\
  (~ found ->
     page = inr (confirmation_page base_url call_id
                   "Sorry, there was an issue: Flight not found. Would you like to try again?")).
Proof.
  cbv zeta. split.
  - intros [H | H]; unfold process_status_check, dict_get; rewrite H; reflexivity.
  - intros Hnot.
    assert (process_status_check call_id data =
            <["success" := PBool false]> (<["message" := PStr "Flight not found"]> ∅)) as ->.
    { unfold process_status_check, dict_get.
      destruct (data !! "flight_id") as [v |]; simpl; [| done].
      destruct v as [| b | n | s]; simpl; try done.
      destruct (decide (s = "AI1")) as [-> | H1]; [exfalso; apply Hnot; by left |].
      destruct (decide (s = "AI2")) as [-> | H2]; [exfalso; apply Hnot; by right |].
      unfold flights. by rewrite !lookup_insert_ne, lookup_empty. }
    reflexivity.
Qed.

(** The delayed flight AI2 is confirmed with the page of any flight. *)
Lemma status_check_confirmation_witness :
  generate_confirmation_vxml "http://localhost:8000" "CA1"
    (process_status_check "CA1" (<["flight_id" := PStr "AI2"]> ∅)) =
  inr (confirmation_page "http://localhost:8000" "CA1"
         "Transaction completed. Is there anything else I can help you with?").
Proof.
  apply (status_check_confirmation "http://localhost:8000" "CA1"
           (<["flight_id" := PStr "AI2"]> ∅)).
  right. reflexivity.
Defined.

(** A text is free of markup characters when a run over its characters
    finds none. *)
Lemma clean_by_check (text : string) :
  forallb (fun x => negb (existsb (Ascii.eqb x) markup_chars)) (list_ascii_of_string text)
    = true ->
  forall x, In x (list_ascii_of_string text) -> ~ In x markup_chars.
Proof.
  intros Hall x Hx Hm. rewrite forallb_forall in Hall. specialize (Hall x Hx).
  apply negb_true_iff in Hall.
  assert (existsb (Ascii.eqb x) markup_chars = true); [| congruence].
  apply existsb_exists. exists x. split; [done | apply Ascii.eqb_refl].
Qed.

(** X28. The confirmation page and the message of the transaction. The
    page is built for every result whose message is a string or is
    missing, and the call raises [AttributeError] for any other message.
    The prompt put into the page contains none of the characters <, >,
    double quote and apostrophe, whatever the message is; it is the
    escaped message followed by the offer of more help when the result's
    success is true, and introduced as an issue otherwise, also when the
    result says nothing about success. *)
Theorem generate_confirmation_vxml_prompt (base_url call_id : string)
    (result : gmap string PyVal) :
  let message := default (PStr "Transaction completed") (result !! "message") in
  let success := py_truthy (default (PBool false) (result !! "success")) in
  match message with
  | PStr text =>
      exists prompt,
        generate_confirmation_vxml base_url call_id result =
          inr (confirmation_page base_url call_id prompt) /\
        (forall x, In x (list_ascii_of_string prompt) -> ~ In x markup_chars) /\
        prompt =
          (if success
           then _escape_xml text +:+ ". Is there anything else I can help you with?"
           else "Sorry, there was an issue: " +:+ _escape_xml text +:+
                ". Would you like to try again?")
  | _ => generate_confirmation_vxml base_url call_id result = inl (AttributeError "replace")
  end.
Proof.
  cbv zeta. unfold generate_confirmation_vxml.
  destruct (default (PStr "Transaction completed") (result !! "message")) as [| b | n | text];
    try reflexivity.
  eexists. split; [reflexivity |]. split; [| reflexivity].
  assert (Hclean : forall x, In x (list_ascii_of_string (_escape_xml text)) ->
                             ~ In x markup_chars).
  { rewrite escape_xml_each. induction text as [| c text IH]; simpl; [done |].
    intros x. rewrite list_ascii_of_string_app, in_app_iff.
    intros [Hx | Hx]; [by apply (escape_char_clean c) | by apply IH]. }
  intros x.
  destruct (py_truthy (default (PBool false) (result !! "success")));
    rewrite !list_ascii_of_string_app, !in_app_iff.
  - intros [Hx | Hx]; [by apply Hclean |].
    revert Hx. apply clean_by_check. vm_compute. reflexivity.
  - intros [Hx | [Hx | Hx]]; [| by apply Hclean |];
      revert Hx; apply clean_by_check; vm_compute; reflexivity.
Qed.
